(** * exchange_calendars_extensions.api.changes: the changeset model

    A shallow embedding of [changes.py]: the day-type taxonomy, the two
    day-properties shapes, the per-date metadata record and the [ChangeSet]
    aggregate with its validators, its canonicalisation pass and its mutating
    operations, followed by the properties of the specification.

    Conventions of the embedding.
    - A Python method that mutates [self] and then returns or raises becomes a
      function into [Outcome]: the final state of the object together with
      the exception, if any.
    - An insertion-ordered [dict] / [OrderedDict] is an association list with
      the Python item-assignment semantics (an existing key keeps its place).
    - [set(...)] is a stdpp [gset]; iterating it ([elements]) yields an
      unspecified order, as in Python.
    - A [pandas.Timestamp] is its number of nanoseconds since the epoch.  All
      timestamps are time-zone naive, hence mutually comparable.
    - Strings are sequences of code points below 256. *)

From Stdlib Require Import ZArith Lia Ascii String OrderedTypeEx.
From stdpp Require Import base option list sorting gmap sets strings.

Local Open Scope string_scope.
Local Open Scope list_scope.
Local Open Scope Z_scope.

(** ** Python builtins used by the module *)

Module Py.

(** [sorted(l, key=key)]: a stable sort, comparing keys with [le].  The element
    at the head is placed before the first element of the sorted tail that is
    not smaller, so equal keys keep their input order. *)
Section Sorted.
Context {A K : Type} (key : A → K) (le : K → K → bool).

Fixpoint insert (x : A) (l : list A) : list A :=
  match l with
  | [] => [x]
  | y :: l' => if le (key x) (key y) then x :: y :: l' else y :: insert x l'
  end.

Fixpoint sorted (l : list A) : list A :=
  match l with
  | [] => []
  | x :: l' => insert x (sorted l')
  end.
End Sorted.

(** Insertion-ordered dictionaries. *)
Section Dict.
Context {K V : Type} `{EqDecision K}.

Definition keys (d : list (K * V)) : list K := d.*1.

(** [k in d] *)
Definition contains (k : K) (d : list (K * V)) : bool :=
  bool_decide (k ∈ keys d).

(** [d.get(k)] *)
Fixpoint get (k : K) (d : list (K * V)) : option V :=
  match d with
  | [] => None
  | (k', v) :: d' => if decide (k = k') then Some v else get k d'
  end.

(** [d[k] = v]: an existing key keeps its position, a new key goes last. *)
Fixpoint setitem (k : K) (v : V) (d : list (K * V)) : list (K * V) :=
  match d with
  | [] => [(k, v)]
  | (k', v') :: d' =>
      if decide (k = k') then (k, v) :: d' else (k', v') :: setitem k v d'
  end.

(** [d.pop(k, None)], also [del d[k]] for a key that is present: the entry
    under [k] goes (keys are unique, so there is at most one). *)
Definition pop (k : K) (d : list (K * V)) : list (K * V) :=
  filter (λ kv, kv.1 ≠ k) d.

(** [OrderedDict(items)] / [dict(items)]. *)
Definition of_items (items : list (K * V)) : list (K * V) :=
  foldl (λ d kv, setitem kv.1 kv.2 d) [] items.
End Dict.

(** [l.remove(x)]: drops the first occurrence. *)
Fixpoint list_remove {A} `{EqDecision A} (x : A) (l : list A) : list A :=
  match l with
  | [] => []
  | y :: l' => if decide (x = y) then l' else y :: list_remove x l'
  end.

(** [str.isspace] on one character, for code points below 256. *)
Definition isspace (c : ascii) : bool :=
  let n := N_of_ascii c in
  ((9 <=? n) && (n <=? 13) || (28 <=? n) && (n <=? 32)
   || (n =? 133) || (n =? 160))%N.

Fixpoint lstrip (s : string) : string :=
  match s with
  | EmptyString => EmptyString
  | String c s' => if isspace c then lstrip s' else s
  end.

Fixpoint rstrip (s : string) : string :=
  match s with
  | EmptyString => EmptyString
  | String c s' =>
      match rstrip s' with
      | EmptyString => if isspace c then EmptyString else String c EmptyString
      | r => String c r
      end
  end.

(** [s.strip()] *)
Definition strip (s : string) : string := rstrip (lstrip s).

End Py.

(** ** Data model *)

(** [DayType]: the closed enumeration of special-day categories. *)
Inductive DayType :=
| HOLIDAY | SPECIAL_OPEN | SPECIAL_CLOSE | MONTHLY_EXPIRY | QUARTERLY_EXPIRY.

Global Instance DayType_eq_dec : EqDecision DayType.
Proof. solve_decision. Defined.

(** The string value of each member ([DayType] is a [str] enum). *)
Definition DayType_value (t : DayType) : string :=
  match t with
  | HOLIDAY => "holiday"
  | SPECIAL_OPEN => "special_open"
  | SPECIAL_CLOSE => "special_close"
  | MONTHLY_EXPIRY => "monthly_expiry"
  | QUARTERLY_EXPIRY => "quarterly_expiry"
  end.

Definition DayType_members : list DayType :=
  [HOLIDAY; SPECIAL_OPEN; SPECIAL_CLOSE; MONTHLY_EXPIRY; QUARTERLY_EXPIRY].

Definition DayType_of_value (s : string) : option DayType :=
  list_find (λ t, DayType_value t = s) DayType_members ≫= λ it, Some it.2.

(** [pd.Timestamp]: nanoseconds since the epoch. *)
Abbreviation Timestamp := Z (only parsing).

Definition NS_PER_DAY : Z := 86400 * 1000000000.


(** [dt.time] *)
Record dt_time := mk_time { hour : N; minute : N; second : N; microsecond : N }.

Global Instance dt_time_eq_dec : EqDecision dt_time.
Proof. solve_decision. Defined.

(** [DayProps] and [DayPropsWithTime]; [DayPropsLike] is their union,
    discriminated by [type]. *)
Inductive DayPropsLike :=
| DayProps (name : string) (type : DayType)
| DayPropsWithTime (name : string) (type : DayType) (time : dt_time).

Global Instance DayPropsLike_eq_dec : EqDecision DayPropsLike.
Proof. solve_decision. Defined.

(** The [Literal[...]] annotation of the [type] field of each class. *)
Definition DayProps_types : list DayType :=
  [HOLIDAY; MONTHLY_EXPIRY; QUARTERLY_EXPIRY].
Definition DayPropsWithTime_types : list DayType :=
  [SPECIAL_OPEN; SPECIAL_CLOSE].

Definition props_type (p : DayPropsLike) : DayType :=
  match p with DayProps _ t => t | DayPropsWithTime _ t _ => t end.

(** [DateMeta]: after validation [tags] is always a list. *)
Record DateMeta := mk_DateMeta { tags : list string; comment : option string }.

Global Instance DateMeta_eq_dec : EqDecision DateMeta.
Proof. solve_decision. Defined.

(** [ChangeSet] *)
Record ChangeSet := mk_ChangeSet {
  add : list (Timestamp * DayPropsLike);
  remove : list Timestamp;
  meta : list (Timestamp * DateMeta)
}.

Global Instance ChangeSet_eq_dec : EqDecision ChangeSet.
Proof. solve_decision. Defined.

(** Python values that reach the validators. *)
#[warnings="-register-all"]
Inductive PyVal :=
| PNone
| PInt (z : Z)
| PStr (s : string)
| PDate (year month day : Z)       (* datetime.date *)
| PTime (t : dt_time)               (* datetime.time *)
| PTimestamp (t : Timestamp)        (* pandas.Timestamp *)
| PDayType (t : DayType)
| PList (l : list PyVal)
| PTuple (l : list PyVal)
| PSet (l : list PyVal)
| PDict (items : list (PyVal * PyVal))
| PDayProps (p : DayPropsLike)      (* an instance of either props class *)
| PDateMeta (m : DateMeta).

Inductive Exn :=
| ValidationError                         (* pydantic.ValidationError *)
| TypeError
| ValueError_to_timestamp (value : PyVal) (* 'Failed to convert ... to Timestamp.' *)
| ValueError_to_time (value : PyVal)      (* 'Failed to convert ... to time.' *)
| ValueError_already_added (date : Timestamp).
                                          (* 'Day ... already in days to add.' *)

Inductive Result (A : Type) :=
| Ok (a : A)
| Raise (e : Exn).
Arguments Ok {A} a.
Arguments Raise {A} e.

(** The exception monad, with stdpp's [x ← r; k] notation. *)
Global Instance Result_ret : MRet Result := λ A a, Ok a.
Global Instance Result_bind : MBind Result := λ A B f r,
  match r with Ok a => f a | Raise e => Raise e end.

(** [ValueError] raised inside a validator function surfaces as a
    [ValidationError]; other exceptions pass through. *)
Definition in_validator {A} (r : Result A) : Result A :=
  match r with
  | Raise (ValueError_to_timestamp _) | Raise (ValueError_to_time _) =>
      Raise ValidationError
  | _ => r
  end.

(** ** [_to_time] and the two [strptime] formats it tries *)

Inductive directive := dH | dM | dS | dLit (c : ascii).

Definition fmt_HM : list directive := [dH; dLit ":"; dM].           (* '%H:%M' *)
Definition fmt_HMS : list directive := [dH; dLit ":"; dM; dLit ":"; dS].
                                                                     (* '%H:%M:%S' *)

Definition digit (c : ascii) : option N :=
  let n := N_of_ascii c in
  if ((48 <=? n) && (n <=? 57))%N then Some (n - 48)%N else None.

(** Two characters matching [\d\d] with a side condition on the digits. *)
Definition two_digits (ok : N → N → bool) (s : string) : list (N * string) :=
  match s with
  | String a (String b r) =>
      match digit a, digit b with
      | Some x, Some y => if ok x y then [((10 * x + y)%N, r)] else []
      | _, _ => []
      end
  | _ => []
  end.

(** One character matching [\d]. *)
Definition one_digit (s : string) : list (N * string) :=
  match s with
  | String a r => match digit a with Some x => [(x, r)] | None => [] end
  | _ => []
  end.

(** The ways a directive's regular expression can match a prefix of [s], in
    the order the alternation tries them:
    [%H] is [2[0-3]|[0-1]\d|\d], [%M] is [[0-5]\d|\d],
    [%S] is [6[0-1]|[0-5]\d|\d]. *)
Definition alternatives (d : directive) (s : string) : list (N * string) :=
  match d with
  | dH => two_digits (λ x y, (x =? 2) && (y <=? 3))%N s
          ++ two_digits (λ x _, x <=? 1)%N s ++ one_digit s
  | dM => two_digits (λ x _, x <=? 5)%N s ++ one_digit s
  | dS => two_digits (λ x y, (x =? 6) && (y <=? 1))%N s
          ++ two_digits (λ x _, x <=? 5)%N s ++ one_digit s
  | dLit c =>
      match s with
      | String a r => if bool_decide (a = c) then [(0%N, r)] else []
      | _ => []
      end
  end.

Definition store (d : directive) (v : N) (t : dt_time) : dt_time :=
  match d with
  | dH => mk_time v (minute t) (second t) (microsecond t)
  | dM => mk_time (hour t) v (second t) (microsecond t)
  | dS => mk_time (hour t) (minute t) v (microsecond t)
  | dLit _ => t
  end.

Fixpoint first_match {A B} (f : A → option B) (l : list A) : option B :=
  match l with
  | [] => None
  | x :: l' => match f x with Some y => Some y | None => first_match f l' end
  end.

(** Backtracking match of the format's regular expression at the start of
    [s]: the fields found and the unconsumed rest. *)
Fixpoint regex_match (fmt : list directive) (s : string) (acc : dt_time)
  : option (dt_time * string) :=
  match fmt with
  | [] => Some (acc, s)
  | d :: fmt' =>
      first_match (λ vr, regex_match fmt' vr.2 (store d vr.1 acc))
                  (alternatives d s)
  end.

(** [dt.datetime.strptime(data_string, format).time()]; [None] stands for
    [ValueError]: no match, unconverted data, or a second of 60 or 61, which
    the [datetime] constructor rejects. *)
Definition strptime (data_string : string) (format : list directive)
  : option dt_time :=
  match regex_match format data_string (mk_time 0 0 0 0) with
  | None => None
  | Some (t, rest) =>
      if bool_decide (rest = "") then
        if (second t <=? 59)%N then Some t else None
      else None
  end.

(** The loop [for f in ('%H:%M', '%H:%M:%S')] with its [break]. *)
Fixpoint try_formats (value : string) (fs : list (list directive))
  : option dt_time :=
  match fs with
  | [] => None
  | f :: fs' =>
      match strptime value f with
      | Some t => Some t
      | None => try_formats value fs'
      end
  end.

Definition _to_time (value : PyVal) : Result dt_time :=
  match value with
  | PTime t => Ok t
  | PStr s =>
      match try_formats s [fmt_HM; fmt_HMS] with
      | Some t => Ok t
      | None => Raise (ValueError_to_time value)
      end
  | _ => Raise TypeError  (* strptime() argument 1 must be str *)
  end.

(** [TimeLike = Annotated[dt.time, BeforeValidator(_to_time)]] *)
Definition TimeLike (value : PyVal) : Result dt_time :=
  in_validator (_to_time value).

(** ** Validation of composite values *)

(** Validation of two parts of one value: each part is validated even when
    an earlier one has failed, the failures being collected into one
    [ValidationError]; an exception of another kind escapes as soon as it is
    raised. *)
Definition collect {A B} (r1 : Result A) (r2 : Result B) : Result (A * B) :=
  match r1 with
  | Ok a => match r2 with Ok b => Ok (a, b) | Raise e => Raise e end
  | Raise ValidationError =>
      match r2 with Raise TypeError => Raise TypeError | _ => Raise ValidationError end
  | Raise e => Raise e
  end.

Fixpoint validate_all {A B} (f : A → Result B) (l : list A) : Result (list B) :=
  match l with
  | [] => Ok []
  | x :: l' => yl ← collect (f x) (validate_all f l'); Ok (yl.1 :: yl.2)
  end.

(** The items of a mapping whose keys must all be field names. *)
Definition str_key (kv : PyVal * PyVal) : Result (string * PyVal) :=
  match kv.1 with PStr s => Ok (s, kv.2) | _ => Raise ValidationError end.

Definition fields_of (v : PyVal) : Result (list (string * PyVal)) :=
  match v with
  | PDict items => validate_all str_key items
  | _ => Raise ValidationError
  end.

(** [extra='forbid'] *)
Definition forbid_extra (names : list string) (fields : list (string * PyVal))
  : Result unit :=
  if forallb (λ kv, bool_decide (kv.1 ∈ names)) fields then Ok tt
  else Raise ValidationError.

(** A field without a default. *)
Definition required (name : string) (fields : list (string * PyVal))
  : Result PyVal :=
  match Py.get name fields with
  | Some v => Ok v
  | None => Raise ValidationError
  end.

Definition validate_str (v : PyVal) : Result string :=
  match v with PStr s => Ok s | _ => Raise ValidationError end.

(** A member of [DayType], given as the member or as its string value. *)
Definition to_DayType (v : PyVal) : option DayType :=
  match v with
  | PDayType t => Some t
  | PStr s => DayType_of_value s
  | _ => None
  end.

(** [Literal[...]] over members of [DayType]. *)
Definition validate_literal (allowed : list DayType) (v : PyVal)
  : Result DayType :=
  match to_DayType v with
  | Some t => if bool_decide (t ∈ allowed) then Ok t else Raise ValidationError
  | None => Raise ValidationError
  end.

(** [DayProps(fields)] *)
Definition validate_DayProps (fields : list (string * PyVal))
  : Result DayPropsLike :=
  r ← collect (required "name" fields ≫= validate_str)
        (collect (required "type" fields ≫= validate_literal DayProps_types)
                 (forbid_extra ["name"; "type"] fields));
  Ok (DayProps r.1 r.2.1).

(** [DayPropsWithTime(fields)] *)
Definition validate_DayPropsWithTime (fields : list (string * PyVal))
  : Result DayPropsLike :=
  r ← collect (required "name" fields ≫= validate_str)
        (collect (required "type" fields
                    ≫= validate_literal DayPropsWithTime_types)
          (collect (required "time" fields ≫= TimeLike)
                   (forbid_extra ["name"; "type"; "time"] fields)));
  Ok (DayPropsWithTime r.1 r.2.1 r.2.2.1).

(** [DayPropsLike]: the union discriminated by [type].  An instance of either
    class is taken as it is; a mapping is dispatched on its [type] entry. *)
Definition validate_DayPropsLike (v : PyVal) : Result DayPropsLike :=
  match v with
  | PDayProps p => Ok p
  | PDict _ =>
      fields ← fields_of v;
      tag ← required "type" fields;
      match to_DayType tag with
      | None => Raise ValidationError
      | Some t =>
          if bool_decide (t ∈ DayProps_types) then validate_DayProps fields
          else validate_DayPropsWithTime fields
      end
  | _ => Raise ValidationError
  end.

(** [Tags = Union[Collection[str], None]] *)
Definition validate_Tags (v : PyVal) : Result (option (list string)) :=
  match v with
  | PNone => Ok None
  | PList l | PTuple l | PSet l =>
      strs ← validate_all validate_str l; Ok (Some strs)
  | _ => Raise ValidationError
  end.

(** The validated tags as the Python value handed on to the method body. *)
Definition Tags_value (t : option (list string)) : PyVal :=
  match t with
  | None => PNone
  | Some l => PList (PStr <$> l)
  end.

(** [Union[str, None]] *)
Definition validate_comment (v : PyVal) : Result (option string) :=
  match v with
  | PNone => Ok None
  | PStr s => Ok (Some s)
  | _ => Raise ValidationError
  end.

(** ** [DateMeta] *)

(** [sorted(set(l))] *)
Definition sorted_set `{Countable A} (le : A → A → bool) (l : list A) : list A :=
  Py.sorted id le (elements (list_to_set l : gset A)).

(** [DateMeta._canonicalize], on the validated fields: tags sorted without
    duplicates, comment stripped and [None] if empty. *)
Definition DateMeta_canonicalize
    (tags : option (list string)) (comment : option string) : DateMeta :=
  {| tags := sorted_set String.leb
               (match tags with Some (x :: l) => x :: l | _ => [] end);
     comment := match comment with
                | Some c =>
                    match Py.strip c with
                    | EmptyString => None
                    | c' => Some c'
                    end
                | None => None
                end |}.

(** [DateMeta()] *)
Definition DateMeta_default : DateMeta := DateMeta_canonicalize (Some []) None.

(** [DateMeta.__len__] *)
Definition DateMeta_len (self : DateMeta) : nat :=
  (length (tags self)
   + match comment self with Some _ => 1 | None => 0 end)%nat.

(** [DateMeta(fields)] *)
Definition validate_DateMeta_fields (fields : list (string * PyVal))
  : Result DateMeta :=
  r ← collect (match Py.get "tags" fields with
               | Some v => validate_Tags v
               | None => Ok (Some [])
               end)
        (collect (match Py.get "comment" fields with
                  | Some v => validate_comment v
                  | None => Ok None
                  end)
                 (forbid_extra ["tags"; "comment"] fields));
  Ok (DateMeta_canonicalize r.1 r.2.1).

Definition validate_DateMeta (v : PyVal) : Result DateMeta :=
  match v with
  | PDateMeta m => Ok m
  | PDict _ => fields_of v ≫= validate_DateMeta_fields
  | _ => Raise ValidationError
  end.

(** [meta.tags = value] under [validate_assignment]: the value is validated,
    assigned, and the model validator runs again; on failure the object is
    untouched. *)
Definition DateMeta_set_tags (self : DateMeta) (value : PyVal) : Result DateMeta :=
  t ← validate_Tags value;
  Ok (DateMeta_canonicalize t (comment self)).

(** ** [ChangeSet] *)

(** [ChangeSet._canonicalize]: [add] and [meta] re-built in ascending key
    order, [remove] sorted without duplicates. *)
Definition ChangeSet_canonicalize (self : ChangeSet) : ChangeSet :=
  let add' := Py.of_items (Py.sorted fst Z.leb (add self)) in
  let remove' := sorted_set Z.leb (remove self) in
  let meta' := Py.of_items (Py.sorted fst Z.leb (meta self)) in
  {| add := add'; remove := remove'; meta := meta' |}.

(** [cls.model_validate(self, strict=True)] on an instance of the class: the
    fields are not validated again, the model validator runs on the object. *)
Definition model_validate (self : ChangeSet) : Result ChangeSet :=
  Ok (ChangeSet_canonicalize self).

(** What a method call leaves behind: the object after a normal return, or
    the exception together with the object as the caller finds it. *)
Inductive Outcome :=
| Return (self : ChangeSet)
| Raised (e : Exn) (self : ChangeSet).

Definition state (o : Outcome) : ChangeSet :=
  match o with Return s => s | Raised _ s => s end.

Definition set_add (self : ChangeSet) a : ChangeSet :=
  {| add := a; remove := remove self; meta := meta self |}.
Definition set_remove (self : ChangeSet) r : ChangeSet :=
  {| add := add self; remove := r; meta := meta self |}.
Definition set_meta (self : ChangeSet) m : ChangeSet :=
  {| add := add self; remove := remove self; meta := m |}.

(** The body of [add_day], on validated arguments. *)
Definition add_day_body (self : ChangeSet) (date : Timestamp)
    (props : DayPropsLike) : Outcome :=
  if Py.contains date (add self) then
    Raised (ValueError_already_added date) self
  else
    let prev := Py.get date (add self) in
    let self1 := set_add self (Py.setitem date props (add self)) in
    match model_validate self1 with
    | Ok self2 => Return self2
    | Raise e =>
        Raised e
          (match prev with
           | Some p => set_add self1 (Py.setitem date p (add self1))
           | None => set_add self1 (Py.pop date (add self1))
           end)
    end.

(** The body of [remove_day]. *)
Definition remove_day_body (self : ChangeSet) (date : Timestamp) : Outcome :=
  let self1 := set_remove self (remove self ++ [date]) in
  match model_validate self1 with
  | Ok self2 => Return self2
  | Raise e => Raised e (set_remove self1 (Py.list_remove date (remove self1)))
  end.

(** The body of [set_tags].  The inner [try] assigns the tags and, on failure,
    assigns the previous ones before re-raising; the [finally] clause then
    stores the record under [date] or drops the key. *)
Definition set_tags_body (self : ChangeSet) (date : Timestamp)
    (new_tags : PyVal) : Outcome :=
  let meta0 := default DateMeta_default (Py.get date (meta self)) in
  let tags_prev := tags meta0 in
  let '(meta1, exn) :=
    match DateMeta_set_tags meta0 new_tags with
    | Ok m => (m, None)
    | Raise e =>
        match DateMeta_set_tags meta0 (PList (PStr <$> tags_prev)) with
        | Ok m => (m, Some e)
        | Raise e' => (meta0, Some e')
        end
    end in
  let self1 :=
    if bool_decide (0 < DateMeta_len meta1)%nat
    then set_meta self (Py.setitem date meta1 (meta self))
    else set_meta self (Py.pop date (meta self)) in
  match exn with
  | None => Return self1
  | Some e => Raised e self1
  end.

(** [ChangeSet.__len__] *)
Definition ChangeSet_len (self : ChangeSet) : nat :=
  (length (add self) + length (remove self) + length (meta self))%nat.

(** [ChangeSet.__eq__] between two change sets; the mappings of both are
    ordered dictionaries, whose equality is that of their item lists. *)
Definition ChangeSet_eq (self other : ChangeSet) : bool :=
  bool_decide (add self = add other)
  && bool_decide (remove self = remove other)
  && bool_decide (meta self = meta other).

(** [ChangeSet.all_days] *)
Definition all_days (self : ChangeSet) (include_meta : bool) : list Timestamp :=
  let dates : gset Z :=
    list_to_set (Py.keys (add self)) ∪ list_to_set (remove self) in
  let dates :=
    if include_meta then dates ∪ list_to_set (Py.keys (meta self)) else dates in
  Py.sorted id Z.leb (elements dates).

(** [ChangeSet.clear] *)
Definition clear (self : ChangeSet) (include_meta : bool) : ChangeSet :=
  {| add := []; remove := [];
     meta := if include_meta then [] else meta self |}.

(** The body of [clear_day]. *)
Definition clear_day_body (self : ChangeSet) (date : Timestamp)
    (include_meta : bool) : ChangeSet :=
  {| add := Py.pop date (add self);
     remove := filter (λ x, x ≠ date) (remove self);
     meta := if include_meta then Py.pop date (meta self) else meta self |}.

(** ** Serialisation to the plain nested mapping ([model_dump]) *)

Definition dump_DayPropsLike (p : DayPropsLike) : PyVal :=
  match p with
  | DayProps n t => PDict [(PStr "name", PStr n); (PStr "type", PDayType t)]
  | DayPropsWithTime n t tm =>
      PDict [(PStr "name", PStr n); (PStr "type", PDayType t);
             (PStr "time", PTime tm)]
  end.

Definition dump_DateMeta (m : DateMeta) : PyVal :=
  PDict [(PStr "tags", PList (PStr <$> tags m));
         (PStr "comment", match comment m with Some c => PStr c | None => PNone end)].

Definition model_dump (self : ChangeSet) : PyVal :=
  PDict [(PStr "add",
          PDict ((λ kv, (PTimestamp kv.1, dump_DayPropsLike kv.2)) <$> add self));
         (PStr "remove", PList (PTimestamp <$> remove self));
         (PStr "meta",
          PDict ((λ kv, (PTimestamp kv.1, dump_DateMeta kv.2)) <$> meta self))].

(** ** Conversion of dates and the validated entry points *)

Section Pandas.
(** [pd.Timestamp(value)] for a value that is not a timestamp already;
    [None] when pandas cannot convert it. *)
Variable pd_Timestamp : PyVal → option Timestamp.

Definition _to_timestamp (value : PyVal) : Result Timestamp :=
  match value with
  | PTimestamp t => Ok t
  | _ =>
      match pd_Timestamp value with
      | Some t => Ok t
      | None => Raise (ValueError_to_timestamp value)
      end
  end.

(** [TimestampLike = Annotated[pd.Timestamp, BeforeValidator(_to_timestamp)]] *)
Definition TimestampLike (value : PyVal) : Result Timestamp :=
  in_validator (_to_timestamp value).

(** [Dict[TimestampLike, V]]: keys and values validated in iteration order
    and assigned into a new dictionary. *)
Definition validate_item {V} (fv : PyVal → Result V) (kv : PyVal * PyVal)
  : Result (Timestamp * V) :=
  collect (TimestampLike kv.1) (fv kv.2).

Definition validate_dict {V} (fv : PyVal → Result V) (v : PyVal)
  : Result (list (Timestamp * V)) :=
  match v with
  | PDict items => l ← validate_all (validate_item fv) items; Ok (Py.of_items l)
  | _ => Raise ValidationError
  end.

(** [List[TimestampLike]] *)
Definition validate_list (v : PyVal) : Result (list Timestamp) :=
  match v with
  | PList l | PTuple l | PSet l => validate_all TimestampLike l
  | _ => Raise ValidationError
  end.

(** [ChangeSet(fields)] / [ChangeSet.model_validate(mapping)] *)
Definition validate_ChangeSet (v : PyVal) : Result ChangeSet :=
  fields ← fields_of v;
  r ← collect (match Py.get "add" fields with
               | Some a => validate_dict validate_DayPropsLike a
               | None => Ok []
               end)
        (collect (match Py.get "remove" fields with
                  | Some r => validate_list r
                  | None => Ok []
                  end)
          (collect (match Py.get "meta" fields with
                    | Some m => validate_dict validate_DateMeta m
                    | None => Ok []
                    end)
                   (forbid_extra ["add"; "remove"; "meta"] fields)));
  Ok (ChangeSet_canonicalize
        {| add := r.1; remove := r.2.1; meta := r.2.2.1 |}).

(** The methods as callers see them, behind [validate_call]. *)
Definition add_day (self : ChangeSet) (date props : PyVal) : Outcome :=
  match collect (TimestampLike date) (validate_DayPropsLike props) with
  | Ok (d, p) => add_day_body self d p
  | Raise e => Raised e self
  end.

Definition remove_day (self : ChangeSet) (date : PyVal) : Outcome :=
  match TimestampLike date with
  | Ok d => remove_day_body self d
  | Raise e => Raised e self
  end.

Definition set_tags (self : ChangeSet) (date tags : PyVal) : Outcome :=
  match collect (TimestampLike date) (validate_Tags tags) with
  | Ok (d, t) => set_tags_body self d (Tags_value t)
  | Raise e => Raised e self
  end.

Definition clear_day (self : ChangeSet) (date : PyVal) (include_meta : bool)
  : Outcome :=
  match TimestampLike date with
  | Ok d => Return (clear_day_body self d include_meta)
  | Raise e => Raised e self
  end.
End Pandas.

(** ** A converter for the examples

    The theorems below hold for every behaviour of the pandas constructor.
    The concrete examples run with this stand-in, which converts native dates
    and ISO [YYYY-MM-DD] strings to midnight of that day. *)

Definition days_from_civil (y m d : Z) : Z :=
  let y' := if m <=? 2 then y - 1 else y in
  let era := y' `div` 400 in
  let yoe := y' - era * 400 in
  let doy := (153 * (if 2 <? m then m - 3 else m + 9) + 2) `div` 5 + d - 1 in
  let doe := yoe * 365 + yoe `div` 4 - yoe `div` 100 + doy in
  era * 146097 + doe - 719468.

Definition civil_timestamp (y m d : Z) : option Timestamp :=
  if (1 <=? m) && (m <=? 12) && (1 <=? d) && (d <=? 31)
  then Some (days_from_civil y m d * NS_PER_DAY) else None.

Definition digits (cs : list ascii) : option Z :=
  foldl (λ acc c, n ← acc; x ← digit c; Some (10 * n + Z.of_N x)) (Some 0) cs.

Definition iso_date (s : string) : option Timestamp :=
  match String.list_ascii_of_string s with
  | [y1; y2; y3; y4; s1; m1; m2; s2; d1; d2] =>
      if bool_decide (s1 = "-"%char ∧ s2 = "-"%char) then
        y ← digits [y1; y2; y3; y4];
        m ← digits [m1; m2];
        d ← digits [d1; d2];
        civil_timestamp y m d
      else None
  | _ => None
  end.

Definition pd_Timestamp_iso (value : PyVal) : option Timestamp :=
  match value with
  | PStr s => iso_date s
  | PDate y m d => civil_timestamp y m d
  | _ => None
  end.

(** ** Orders, canonical form and validity *)

(** A total order given by its boolean test, as [sorted] uses it. *)
Class BoolOrder {K} (le : K → K → bool) := {
  le_total x y : le x y = true ∨ le y x = true;
  le_trans x y z : le x y = true → le y z = true → le x z = true;
  le_antisym x y : le x y = true → le y x = true → x = y
}.

Definition ascending {A K} (key : A → K) (le : K → K → bool) : relation A :=
  λ a b, le (key a) (key b) = true.

Definition strictly {K} (le : K → K → bool) : relation K :=
  λ a b, le a b = true ∧ a ≠ b.

(** The canonical form of a change set: [add] and [meta] iterate in ascending
    date order, [remove] is ascending without duplicates. *)
Definition canonical (c : ChangeSet) : Prop :=
  StronglySorted Z.lt (Py.keys (add c))
  ∧ StronglySorted Z.lt (remove c)
  ∧ StronglySorted Z.lt (Py.keys (meta c)).

(** A metadata record as its validator leaves it. *)
Definition comment_canonical (m : DateMeta) : Prop :=
  ∀ c, comment m = Some c → Py.strip c = c ∧ c ≠ "".

Definition DateMeta_canonical (m : DateMeta) : Prop :=
  StronglySorted (strictly String.leb) (tags m) ∧ comment_canonical m.

(** A day-properties value as its class admits it. *)
Definition DayPropsLike_valid (p : DayPropsLike) : Prop :=
  match p with
  | DayProps _ t => t ∈ DayProps_types
  | DayPropsWithTime _ t _ => t ∈ DayPropsWithTime_types
  end.

(** A change set in canonical form whose values are valid. *)
Definition ChangeSet_valid (c : ChangeSet) : Prop :=
  canonical c
  ∧ Forall (λ kv, DayPropsLike_valid kv.2) (add c)
  ∧ Forall (λ kv, DateMeta_canonical kv.2) (meta c).

(** The comment recorded for a date, if any. *)
Definition comment_at (d : Timestamp) (c : ChangeSet) : option string :=
  Py.get d (meta c) ≫= comment.

(** [ChangeSet()] *)
Definition ChangeSet_new : ChangeSet :=
  ChangeSet_canonicalize {| add := []; remove := []; meta := [] |}.


(** What [set_tags] leaves under [date] when the tags are valid. *)
Definition tagged (self : ChangeSet) (d : Timestamp) (t : option (list string))
  : ChangeSet :=
  let m0 := default DateMeta_default (Py.get d (meta self)) in
  let m1 := DateMeta_canonicalize t (comment m0) in
  if bool_decide (0 < DateMeta_len m1)%nat
  then set_meta self (Py.setitem d m1 (meta self))
  else set_meta self (Py.pop d (meta self)).

(** A validation that fails with a [ValidationError] if it fails at all. *)
Definition no_escape {A} (r : Result A) : Prop :=
  ∀ e, r = Raise e → e = ValidationError.

(** ** Values used in the examples *)

Definition holiday_raw : PyVal :=
  PDict [(PStr "type", PStr "holiday"); (PStr "name", PStr "Holiday")].

Definition special_open_raw : PyVal :=
  PDict [(PStr "type", PStr "special_open"); (PStr "name", PStr "Special Open");
         (PStr "time", PStr "10:00")].

(** 2020-01-01, 2020-01-02 and 2020-01-03 at midnight, and 2020-01-01 at ten
    in the morning. *)
Definition day_2020_01_01 : Timestamp := 1577836800000000000.
Definition day_2020_01_02 : Timestamp := 1577923200000000000.
Definition day_2020_01_03 : Timestamp := 1578009600000000000.

(** ** [ChangeSetDict]

    The root model over [Dict[str, ChangeSet]]; every method delegates to the
    root dictionary, which is what the functions below take and return. *)

(** The outcome of a subscript: the value, or [KeyError] for a missing key. *)
Inductive Lookup (A : Type) :=
| Found (a : A)
| KeyError (key : string).
Arguments Found {A} a.
Arguments KeyError {A} key.

(** [__getitem__] *)
Definition ChangeSetDict_getitem (root : list (string * ChangeSet))
    (key : string) : Lookup ChangeSet :=
  match Py.get key root with
  | Some value => Found value
  | None => KeyError key
  end.

(** [__setitem__] *)
Definition ChangeSetDict_setitem (root : list (string * ChangeSet))
    (key : string) (value : ChangeSet) : list (string * ChangeSet) :=
  Py.setitem key value root.

(** [__delitem__]: the root afterwards, or [KeyError] with the root untouched. *)
Definition ChangeSetDict_delitem (root : list (string * ChangeSet))
    (key : string) : Lookup (list (string * ChangeSet)) :=
  if Py.contains key root then Found (Py.pop key root) else KeyError key.

(** [__contains__] *)
Definition ChangeSetDict_contains (root : list (string * ChangeSet))
    (key : string) : bool :=
  Py.contains key root.

(** [__len__] *)
Definition ChangeSetDict_len (root : list (string * ChangeSet)) : nat :=
  length root.

(** [get(key, default)] *)
Definition ChangeSetDict_get (root : list (string * ChangeSet))
    (key : string) (default : option ChangeSet) : option ChangeSet :=
  match Py.get key root with
  | Some value => Some value
  | None => default
  end.

(** [pop(key, default)]: what is returned, and the root afterwards. *)
Definition ChangeSetDict_pop (root : list (string * ChangeSet))
    (key : string) (default : option ChangeSet)
  : option ChangeSet * list (string * ChangeSet) :=
  (match Py.get key root with
   | Some value => Some value
   | None => default
   end,
   Py.pop key root).

(** ** [versioningit_gitflow.version]: [sanitize] *)

(** A character of the class [[a-zA-Z0-9]]. *)
Definition alnum (c : ascii) : bool :=
  let n := N_of_ascii c in
  ((48 <=? n) && (n <=? 57) || (65 <=? n) && (n <=? 90)
   || (97 <=? n) && (n <=? 122))%N.

(** [re.sub(r"[^a-zA-Z0-9]", ".", x)] *)
Fixpoint sanitize (x : string) : string :=
  match x with
  | EmptyString => EmptyString
  | String c x' => String (if alnum c then c else "."%char) (sanitize x')
  end.

(** ** Wall-clock times in text *)

(** A time of day as [strptime] can return it. *)
Definition time_in_range (t : dt_time) : Prop :=
  (hour t <= 23 ∧ minute t <= 59 ∧ second t <= 59 ∧ microsecond t = 0)%N.

(** A number below 100 written with two digits. *)
Definition digit_char (n : N) : ascii := ascii_of_N (48 + n).
Definition two_digit (n : N) : string :=
  String (digit_char (n / 10)) (String (digit_char (n mod 10)) EmptyString).

(** The texts [HH:MM] and [HH:MM:SS]. *)
Definition HH_MM (h m : N) : string :=
  two_digit h ++ ":" ++ two_digit m.
Definition HH_MM_SS (h m s : N) : string :=
  two_digit h ++ ":" ++ two_digit m ++ ":" ++ two_digit s.

(** * Properties *)

(** ** The order instances *)

Global Instance Z_leb_order : BoolOrder Z.leb.
Proof. split; intros; lia. Qed.

Lemma String_leb_total_order : BoolOrder String.leb.
Proof.
  split.
  - apply String.leb_total.
  - intros x y z Hxy Hyz. unfold String.leb in *.
    destruct (String.compare x y) eqn:Exy; [| |done].
    { by apply String.compare_eq_iff in Exy as ->. }
    destruct (String.compare y z) eqn:Eyz; [| |done].
    { apply String.compare_eq_iff in Eyz as <-. by rewrite Exy. }
    apply String_as_OT.cmp_lt in Exy, Eyz.
    pose proof (String_as_OT.lt_trans _ _ _ Exy Eyz) as Exz.
    apply String_as_OT.cmp_lt in Exz. unfold String_as_OT.cmp in Exz.
    by rewrite Exz.
  - apply String.leb_antisym.
Qed.
Global Existing Instance String_leb_total_order.

(** ** [sorted] *)

Section sorted_facts.
Context {A K : Type} (key : A → K) (le : K → K → bool) `{!BoolOrder le}.

Local Abbreviation R := (ascending key le).

Lemma insert_Permutation x l : Py.insert key le x l ≡ₚ x :: l.
Proof.
  induction l as [|y l IH]; simpl; [done|].
  destruct (le (key x) (key y)); [done|].
  rewrite IH. apply Permutation_swap.
Qed.

Lemma sorted_Permutation l : Py.sorted key le l ≡ₚ l.
Proof.
  induction l as [|x l IH]; simpl; [done|].
  by rewrite insert_Permutation, IH.
Qed.

Lemma elem_of_sorted x l : x ∈ Py.sorted key le l ↔ x ∈ l.
Proof. by rewrite sorted_Permutation. Qed.

Lemma ascending_trans a b c : R a b → R b c → R a c.
Proof. unfold ascending. apply le_trans. Qed.

Lemma insert_StronglySorted x l :
  StronglySorted R l → StronglySorted R (Py.insert key le x l).
Proof.
  induction 1 as [|y l Hl IH Hy]; simpl.
  { repeat constructor. }
  destruct (le (key x) (key y)) eqn:Hxy.
  - constructor; [by constructor|].
    constructor; [done|].
    eapply Forall_impl; [exact Hy|]. intros z Hz.
    by eapply ascending_trans.
  - constructor; [done|].
    rewrite insert_Permutation. constructor; [|done].
    unfold ascending. destruct (le_total (key x) (key y)); congruence.
Qed.

Lemma sorted_StronglySorted l : StronglySorted R (Py.sorted key le l).
Proof.
  induction l; simpl; [constructor|]. by apply insert_StronglySorted.
Qed.

(** A list that is in order already is left as it is. *)
Lemma sorted_fixed l : StronglySorted R l → Py.sorted key le l = l.
Proof.
  induction 1 as [|x l Hl IH Hx]; simpl; [done|].
  rewrite IH. destruct Hx as [|y l Hxy _]; simpl; [done|].
  unfold ascending in Hxy. by rewrite Hxy.
Qed.

Lemma sorted_idem l :
  Py.sorted key le (Py.sorted key le l) = Py.sorted key le l.
Proof. apply sorted_fixed, sorted_StronglySorted. Qed.

End sorted_facts.

Section sorted_values.
Context {K : Type} (le : K → K → bool) `{!BoolOrder le}.

(** Two orderings of the same elements sort to the same list. *)
Lemma sorted_unique (l1 l2 : list K) :
  l1 ≡ₚ l2 → Py.sorted id le l1 = Py.sorted id le l2.
Proof.
  intros E.
  apply (StronglySorted_unique_strong (ascending id le)).
  - intros x y _ _. apply le_antisym.
  - by apply sorted_StronglySorted.
  - by apply sorted_StronglySorted.
  - by rewrite !sorted_Permutation.
Qed.

(** Without duplicates, ascending is strictly ascending. *)
Lemma ascending_strictly (l : list K) :
  NoDup l → StronglySorted (ascending id le) l →
  StronglySorted (strictly le) l.
Proof.
  intros Hnd Hs. induction Hs as [|x l Hl IH Hx]; [constructor|].
  apply NoDup_cons in Hnd as [Hx' Hnd].
  constructor; [by apply IH|].
  apply Forall_forall. intros y Hy. split.
  - by apply (proj1 (Forall_forall _ _) Hx).
  - by intros ->.
Qed.

Lemma strictly_ascending (l : list K) :
  StronglySorted (strictly le) l →
  NoDup l ∧ StronglySorted (ascending id le) l.
Proof.
  induction 1 as [|x l Hl [IH1 IH2] Hx]; [split; constructor|].
  split.
  - apply NoDup_cons. split; [|done].
    intros Hin. by destruct (proj1 (Forall_forall _ _) Hx x Hin).
  - constructor; [done|]. eapply Forall_impl; [exact Hx|]. by intros y [].
Qed.
End sorted_values.

(** ** [sorted(set(l))] *)

Section sorted_set_facts.
Context `{Countable K} (le : K → K → bool) `{!BoolOrder le}.

Lemma elem_of_sorted_set x (l : list K) : x ∈ sorted_set le l ↔ x ∈ l.
Proof.
  unfold sorted_set.
  by rewrite elem_of_sorted, elem_of_elements, elem_of_list_to_set.
Qed.

Lemma sorted_set_strictly (l : list K) :
  StronglySorted (strictly le) (sorted_set le l).
Proof.
  apply (ascending_strictly le).
  - unfold sorted_set. rewrite sorted_Permutation. apply NoDup_elements.
  - by apply sorted_StronglySorted.
Qed.


(** The result depends on the elements only. *)
Lemma sorted_set_ext (l1 l2 : list K) :
  (∀ x, x ∈ l1 ↔ x ∈ l2) → sorted_set le l1 = sorted_set le l2.
Proof.
  intros E. unfold sorted_set. apply sorted_unique; [done|].
  apply NoDup_Permutation; [apply NoDup_elements..|].
  intros x. by rewrite !elem_of_elements, !elem_of_list_to_set.
Qed.

(** A strictly ascending list is left as it is. *)
Lemma sorted_set_fixed (l : list K) :
  StronglySorted (strictly le) l → sorted_set le l = l.
Proof.
  intros [Hnd Hs]%(strictly_ascending le).
  rewrite <-(sorted_fixed id le l Hs) at 2.
  unfold sorted_set. apply sorted_unique; [done|].
  apply NoDup_Permutation; [apply NoDup_elements|done|].
  intros x. by rewrite elem_of_elements, elem_of_list_to_set.
Qed.

Lemma sorted_set_idem (l : list K) :
  sorted_set le (sorted_set le l) = sorted_set le l.
Proof. apply sorted_set_fixed, sorted_set_strictly. Qed.

Lemma sorted_set_nil : sorted_set le [] = [].
Proof.
  apply sorted_set_fixed. constructor.
Qed.
End sorted_set_facts.

Lemma strictly_Z_lt (l : list Z) :
  StronglySorted (strictly Z.leb) l ↔ StronglySorted Z.lt l.
Proof.
  split; induction 1 as [|x l Hl IH Hx]; constructor; try done;
    (eapply Forall_impl; [exact Hx|]); unfold strictly; simpl; intros; lia.
Qed.

(** ** Dictionaries *)

Section dict_facts.
Context {K V : Type} `{EqDecision K}.
Implicit Types (d : list (K * V)) (k : K) (v : V).

Lemma contains_true k d : Py.contains k d = true ↔ k ∈ Py.keys d.
Proof. unfold Py.contains. apply bool_decide_eq_true. Qed.

Lemma contains_false k d : Py.contains k d = false ↔ k ∉ Py.keys d.
Proof. unfold Py.contains. apply bool_decide_eq_false. Qed.

Lemma keys_cons k v d : Py.keys ((k, v) :: d) = k :: Py.keys d.
Proof. done. Qed.

Lemma get_None k d : Py.get k d = None ↔ k ∉ Py.keys d.
Proof.
  induction d as [|[k' v'] d IH].
  { split; [intros _; apply not_elem_of_nil|done]. }
  rewrite keys_cons, not_elem_of_cons. simpl.
  destruct (decide (k = k')) as [->|Hne].
  - split; [done|]. by intros [].
  - rewrite IH. split; [done|]. by intros [].
Qed.

Lemma get_Some_elem k v d : Py.get k d = Some v → (k, v) ∈ d.
Proof.
  induction d as [|[k' v'] d IH]; simpl; [done|].
  destruct (decide (k = k')) as [->|]; intros.
  - simplify_eq. left.
  - right. auto.
Qed.

Lemma get_Some_key k v d : Py.get k d = Some v → k ∈ Py.keys d.
Proof.
  intros Hg. apply get_Some_elem in Hg.
  by apply (list_elem_of_fmap_2 fst) in Hg.
Qed.

Lemma get_setitem_eq k v d : Py.get k (Py.setitem k v d) = Some v.
Proof.
  induction d as [|[k' v'] d IH]; simpl.
  { by rewrite decide_True. }
  destruct (decide (k = k')) as [->|Hne]; simpl.
  - by rewrite decide_True.
  - by rewrite decide_False.
Qed.

Lemma get_setitem_ne k k' v d :
  k ≠ k' → Py.get k' (Py.setitem k v d) = Py.get k' d.
Proof.
  intros Hne. induction d as [|[k0 v0] d IH]; simpl.
  { by rewrite decide_False. }
  destruct (decide (k = k0)) as [->|Hne0]; simpl.
  - by rewrite !decide_False.
  - by rewrite IH.
Qed.

Lemma get_pop_eq k d : Py.get k (Py.pop k d) = None.
Proof.
  apply get_None. unfold Py.pop, Py.keys.
  intros ([k' v'] & -> & [Hne _]%list_elem_of_filter)%list_elem_of_fmap.
  done.
Qed.

Lemma get_pop_ne k k' d : k ≠ k' → Py.get k' (Py.pop k d) = Py.get k' d.
Proof.
  intros Hne. unfold Py.pop. induction d as [|[k0 v0] d IH]; [done|].
  rewrite filter_cons; simpl.
  destruct (decide (k0 ≠ k)) as [?|Heq%dec_stable]; simpl.
  - by rewrite IH.
  - subst. by rewrite decide_False.
Qed.


(** Dropping an absent key changes nothing. *)
Lemma pop_absent k d : k ∉ Py.keys d → Py.pop k d = d.
Proof.
  unfold Py.pop. induction d as [|[k' v'] d IH]; [done|].
  rewrite keys_cons, not_elem_of_cons. intros [Hne Hk].
  rewrite filter_cons, decide_True by (simpl; congruence).
  by rewrite IH.
Qed.

Lemma setitem_present k v d :
  k ∈ Py.keys d → Py.keys (Py.setitem k v d) = Py.keys d.
Proof.
  induction d as [|[k' v'] d IH]; [by intros ?%elem_of_nil|].
  rewrite keys_cons. simpl.
  destruct (decide (k = k')) as [->|Hne]; [done|].
  intros [?|Hin]%elem_of_cons; [done|]. rewrite !keys_cons. by rewrite IH.
Qed.

Lemma setitem_absent k v d :
  k ∉ Py.keys d → Py.setitem k v d = d ++ [(k, v)].
Proof.
  induction d as [|[k' v'] d IH]; [done|].
  rewrite keys_cons, not_elem_of_cons. intros [Hne Hk]. simpl.
  rewrite decide_False by done. by rewrite IH.
Qed.

Lemma foldl_setitem_NoDup d (l : list (K * V)) :
  NoDup (Py.keys (d ++ l)) →
  foldl (λ d kv, Py.setitem kv.1 kv.2 d) d l = d ++ l.
Proof.
  revert d. induction l as [|[k v] l IH]; intros d Hnd; simpl.
  { by rewrite app_nil_r. }
  rewrite setitem_absent.
  - rewrite IH; rewrite <-app_assoc; done.
  - unfold Py.keys in Hnd. rewrite fmap_app in Hnd.
    apply NoDup_app in Hnd as (_ & Hd & _).
    intros Hin. apply (Hd k Hin). left.
Qed.

(** Items with distinct keys make the dictionary that lists them. *)
Lemma of_items_NoDup (l : list (K * V)) :
  NoDup (Py.keys l) → Py.of_items l = l.
Proof. intros. by apply (foldl_setitem_NoDup []). Qed.
End dict_facts.

Section dict_order.
Context {V : Type}.
Implicit Types (d l : list (Z * V)).

Lemma foldl_setitem_ascending d l :
  StronglySorted Z.lt (Py.keys d) →
  (∀ a b, a ∈ Py.keys d → b ∈ Py.keys l → a ≤ b) →
  StronglySorted (ascending fst Z.leb) l →
  StronglySorted Z.lt
    (Py.keys (foldl (λ d kv, Py.setitem kv.1 kv.2 d) d l)).
Proof.
  revert d. induction l as [|[k v] l IH]; intros d Hd Hle Hl; simpl; [done|].
  apply StronglySorted_cons in Hl as [Hk Hl].
  assert (Hkl : ∀ b, b ∈ Py.keys l → k ≤ b).
  { intros b ([b' vb] & -> & Hin)%list_elem_of_fmap.
    apply (proj1 (Forall_forall _ _) Hk) in Hin.
    unfold ascending in Hin. simpl in *. lia. }
  apply IH; [| |done].
  - destruct (decide (k ∈ Py.keys d)) as [Hin|Hnin].
    + by rewrite setitem_present.
    + rewrite setitem_absent by done. unfold Py.keys. rewrite fmap_app.
      apply StronglySorted_app_2; [|done|repeat constructor].
      intros a b Ha ->%list_elem_of_singleton.
      assert (a ≤ k) by (apply Hle; [done|left]).
      assert (a ≠ k) by (by intros ->). simpl. lia.
  - intros a b Ha Hb. destruct (decide (k ∈ Py.keys d)) as [Hin|Hnin].
    + rewrite setitem_present in Ha by done. apply Hle; [done|by right].
    + rewrite setitem_absent in Ha by done. unfold Py.keys in Ha.
      rewrite fmap_app in Ha. apply elem_of_app in Ha as [Ha|Ha].
      * apply Hle; [done|by right].
      * apply list_elem_of_singleton in Ha as ->. by apply Hkl.
Qed.

(** The dictionary built from items sorted by key iterates in strictly
    ascending key order. *)
Lemma of_items_sorted l :
  StronglySorted Z.lt (Py.keys (Py.of_items (Py.sorted fst Z.leb l))).
Proof.
  apply foldl_setitem_ascending.
  - constructor.
  - intros a b Ha. by apply elem_of_nil in Ha.
  - apply sorted_StronglySorted, _.
Qed.

Lemma keys_ascending l :
  StronglySorted Z.lt (Py.keys l) →
  NoDup (Py.keys l) ∧ StronglySorted (ascending fst Z.leb) l.
Proof.
  induction l as [|[k v] l IH]; [split; constructor|].
  rewrite keys_cons. intros [Hk Hl]%StronglySorted_cons.
  destruct (IH Hl) as [IH1 IH2]. split.
  - apply NoDup_cons. split; [|done].
    intros Hin. apply (proj1 (Forall_forall _ _) Hk) in Hin. lia.
  - constructor; [done|]. apply Forall_forall. intros [k' v'] Hin.
    apply (list_elem_of_fmap_2 fst), (proj1 (Forall_forall _ _) Hk) in Hin.
    unfold ascending. simpl in *. lia.
Qed.

(** A dictionary in strictly ascending key order is rebuilt as it is. *)
Lemma of_items_sorted_fixed l :
  StronglySorted Z.lt (Py.keys l) →
  Py.of_items (Py.sorted fst Z.leb l) = l.
Proof.
  intros [Hnd Hs]%keys_ascending.
  rewrite sorted_fixed by done. by apply of_items_NoDup.
Qed.
End dict_order.

(** ** [str.strip] *)

Lemma rstrip_head c s :
  Py.isspace c = false → Py.rstrip (String c s) = String c (Py.rstrip s).
Proof. intros Hc. simpl. rewrite Hc. by destruct (Py.rstrip s). Qed.

Lemma rstrip_idem s : Py.rstrip (Py.rstrip s) = Py.rstrip s.
Proof.
  induction s as [|c s IH]; [done|]. simpl.
  destruct (Py.rstrip s) as [|a r] eqn:Hr.
  - destruct (Py.isspace c) eqn:Hc; [done|]. simpl. by rewrite Hc.
  - change (Py.rstrip (String c (String a r))) with
      (match Py.rstrip (String a r) with
       | EmptyString => if Py.isspace c then EmptyString else String c EmptyString
       | r' => String c r'
       end).
    by rewrite IH.
Qed.

Lemma lstrip_head s :
  Py.lstrip s = EmptyString
  ∨ ∃ c s', Py.lstrip s = String c s' ∧ Py.isspace c = false.
Proof.
  induction s as [|c s IH]; [by left|]. simpl.
  destruct (Py.isspace c) eqn:Hc; [done|]. right. eauto.
Qed.

Lemma strip_idem s : Py.strip (Py.strip s) = Py.strip s.
Proof.
  unfold Py.strip. destruct (lstrip_head s) as [->|(c & s' & -> & Hc)]; [done|].
  rewrite rstrip_head by done. simpl Py.lstrip. rewrite Hc.
  rewrite <-rstrip_head by done. apply rstrip_idem.
Qed.

(** ** Canonical metadata *)

Lemma DateMeta_canonicalize_tags t c :
  tags (DateMeta_canonicalize t c) = sorted_set String.leb (default [] t).
Proof. by destruct t as [[|]|]. Qed.

Lemma DateMeta_canonicalize_comment t c :
  comment_canonical {| tags := []; comment := Some c |} →
  comment (DateMeta_canonicalize t (Some c)) = Some c.
Proof.
  intros Hc. destruct (Hc c eq_refl) as [Hs Hne]. simpl. rewrite Hs.
  by destruct c.
Qed.

Lemma DateMeta_canonicalize_canonical t c :
  DateMeta_canonical (DateMeta_canonicalize t c).
Proof.
  split.
  - rewrite DateMeta_canonicalize_tags. apply sorted_set_strictly; apply _.
  - intros c'. destruct c as [c|]; simpl; [|done].
    destruct (Py.strip c) as [|a r] eqn:Hs; [done|].
    intros [= <-]. rewrite <-Hs. split; [apply strip_idem|by rewrite Hs].
Qed.

(** Validating a canonical record again gives the same record. *)
Lemma DateMeta_canonicalize_fixed m :
  DateMeta_canonical m → DateMeta_canonicalize (Some (tags m)) (comment m) = m.
Proof.
  intros [Ht Hc]. destruct m as [ts c].
  assert (tags (DateMeta_canonicalize (Some ts) c) = ts) as Htags.
  { rewrite DateMeta_canonicalize_tags. by apply sorted_set_fixed; [apply _|]. }
  assert (comment (DateMeta_canonicalize (Some ts) c) = c) as Hcomment.
  { destruct c as [c|]; [|done]. apply DateMeta_canonicalize_comment.
    intros c' [= <-]. by apply Hc. }
  simpl tags; simpl comment.
  set (m' := DateMeta_canonicalize (Some ts) c) in *.
  transitivity {| tags := tags m'; comment := comment m' |}; [by destruct m'|].
  by rewrite Htags, Hcomment.
Qed.

(** ** Canonical change sets *)

Lemma ChangeSet_canonicalize_canonical c : canonical (ChangeSet_canonicalize c).
Proof.
  repeat split; simpl.
  - apply of_items_sorted.
  - apply strictly_Z_lt, sorted_set_strictly; apply _.
  - apply of_items_sorted.
Qed.

Lemma ChangeSet_canonicalize_fixed c :
  canonical c → ChangeSet_canonicalize c = c.
Proof.
  intros (Ha & Hr & Hm). destruct c as [a r m]. unfold ChangeSet_canonicalize.
  simpl in *. rewrite !of_items_sorted_fixed by done.
  rewrite sorted_set_fixed; [done|apply _|by apply strictly_Z_lt].
Qed.

Lemma ChangeSet_canonicalize_idem c :
  ChangeSet_canonicalize (ChangeSet_canonicalize c) = ChangeSet_canonicalize c.
Proof. apply ChangeSet_canonicalize_fixed, ChangeSet_canonicalize_canonical. Qed.

(** ** The exception monad *)

Lemma bind_Ok {A B} (r : Result A) (k : A → Result B) b :
  r ≫= k = Ok b ↔ ∃ a, r = Ok a ∧ k a = Ok b.
Proof.
  unfold mbind, Result_bind. destruct r as [a|e].
  - split; [eauto|]. by intros (? & [= <-] & ?).
  - split; [done|]. by intros (? & [=] & ?).
Qed.

Lemma collect_Ok {A B} (r1 : Result A) (r2 : Result B) ab :
  collect r1 r2 = Ok ab ↔ r1 = Ok ab.1 ∧ r2 = Ok ab.2.
Proof.
  destruct ab as [a b], r1 as [a'|[]], r2 as [b'|[]]; simpl;
    (split; [intros ?|intros [? ?]]); by simplify_eq.
Qed.

Lemma validate_all_Ok {A B} (f : A → Result B) l l' :
  validate_all f l = Ok l' ↔ Forall2 (λ x y, f x = Ok y) l l'.
Proof.
  revert l'. induction l as [|x l IH]; intros l'; simpl.
  - split; [intros [= <-]; constructor|by inversion 1].
  - rewrite bind_Ok. split.
    + intros ([y ys] & [Hy Hys]%collect_Ok & [= <-]). simpl in *.
      constructor; [done|by apply IH].
    + inversion 1 as [|? y ? ys Hy Hys]; subst. exists (y, ys).
      split; [|done]. apply collect_Ok. split; [done|by apply IH].
Qed.

(** ** The validated call boundary *)


(** ** Canonical form after a mutation (claim C1, the paths that hold) *)

Lemma add_day_canonical pd self date props self' :
  add_day pd self date props = Return self' → canonical self'.
Proof.
  unfold add_day. destruct (collect _ _) as [[d p]|]; [|done].
  unfold add_day_body. destruct (Py.contains _ _); [done|].
  simpl. intros [= <-]. apply ChangeSet_canonicalize_canonical.
Qed.

Lemma remove_day_canonical pd self date self' :
  remove_day pd self date = Return self' → canonical self'.
Proof.
  unfold remove_day. destruct (TimestampLike _ _); [|done].
  simpl. intros [= <-]. apply ChangeSet_canonicalize_canonical.
Qed.

Lemma validate_ChangeSet_canonical pd v c :
  validate_ChangeSet pd v = Ok c → canonical c.
Proof.
  unfold validate_ChangeSet.
  intros (fields & _ & (r & _ & [= <-])%bind_Ok)%bind_Ok.
  apply ChangeSet_canonicalize_canonical.
Qed.

(** C1 (the path that fails): [set_tags] stores the record of a new date at
    the end of [meta] and returns without running the canonicalisation pass.
    Tagging 2020-01-02 and then 2020-01-01 on a new change set succeeds and
    leaves [meta] iterating 2020-01-02 before 2020-01-01, which is not the
    canonical form. *)
Theorem C1_set_tags_leaves_meta_unsorted pd :
  let d1 := 1577836800000000000 in
  let d2 := 1577923200000000000 in
  let self1 := state (set_tags pd ChangeSet_new (PTimestamp d2) (PList [PStr "a"])) in
  ∃ self2,
    set_tags pd self1 (PTimestamp d1) (PList [PStr "b"]) = Return self2
    ∧ Py.keys (meta self2) = [d2; d1]
    ∧ ¬ canonical self2.
Proof.
  eexists. split; [vm_compute; reflexivity|]. split; [done|].
  intros (_ & _ & Hm). simpl in Hm.
  apply StronglySorted_cons in Hm as [Hlt _].
  apply Forall_cons in Hlt as [Hlt _]. lia.
Qed.

(** ** Adding a day twice *)

(** C2: when the date is a key of [add] already, [add_day] raises the
    duplicate-add [ValueError] whatever the (valid) properties are, and the
    change set, [add] included, is what it was before the call. *)
Theorem C2_add_day_duplicate_rejected pd self date props d p2 :
  TimestampLike pd date = Ok d →
  validate_DayPropsLike props = Ok p2 →
  d ∈ Py.keys (add self) →
  add_day pd self date props = Raised (ValueError_already_added d) self
  ∧ add (state (add_day pd self date props)) = add self.
Proof.
  intros Hd Hp Hin. unfold add_day.
  replace (collect _ _) with (Ok (d, p2))
    by (symmetry; by apply collect_Ok).
  unfold add_day_body.
  by replace (Py.contains d (add self)) with true
    by (symmetry; by apply contains_true).
Qed.

Lemma C2_add_day_duplicate_rejected_witness :
  let self :=
    state (add_day pd_Timestamp_iso ChangeSet_new (PStr "2020-01-01") holiday_raw) in
  add_day pd_Timestamp_iso self (PStr "2020-01-01") special_open_raw
    = Raised (ValueError_already_added day_2020_01_01) self
  ∧ add self = [(day_2020_01_01, DayProps "Holiday" HOLIDAY)].
Proof.
  intros self. split; [|reflexivity].
  apply (C2_add_day_duplicate_rejected pd_Timestamp_iso self
           (PStr "2020-01-01") special_open_raw day_2020_01_01
           (DayPropsWithTime "Special Open" SPECIAL_OPEN (mk_time 10 0 0 0))).
  - reflexivity.
  - reflexivity.
  - vm_compute. left.
Defined.

(** ** Removing a day twice *)






(** ** All days *)

(** C8: [all_days] is strictly ascending, hence sorted and free of
    duplicates, and its elements are exactly the keys of [add] and the
    elements of [remove], together with the keys of [meta] when, and only
    when, [include_meta] is set. *)
Theorem C8_all_days_sorted_union self include_meta :
  StronglySorted Z.lt (all_days self include_meta)
  ∧ ∀ d, d ∈ all_days self include_meta ↔
      d ∈ Py.keys (add self) ∨ d ∈ remove self
      ∨ (include_meta = true ∧ d ∈ Py.keys (meta self)).
Proof.
  unfold all_days. split.
  - apply strictly_Z_lt, (ascending_strictly Z.leb).
    + rewrite sorted_Permutation. apply NoDup_elements.
    + apply sorted_StronglySorted, _.
  - intros d. rewrite elem_of_sorted, elem_of_elements.
    destruct include_meta;
      rewrite ?elem_of_union, !elem_of_list_to_set; intuition congruence.
Qed.

(** The union of the specification: one date in each of [add], [remove] and
    [meta]. *)
Example all_days_union :
  let self :=
    {| add := [(day_2020_01_01, DayProps "Holiday" HOLIDAY)];
       remove := [day_2020_01_02];
       meta := [(day_2020_01_03, {| tags := ["x"]; comment := None |})] |} in
  all_days self false = [day_2020_01_01; day_2020_01_02]
  ∧ all_days self true = [day_2020_01_01; day_2020_01_02; day_2020_01_03].
Proof. split; vm_compute; reflexivity. Qed.

(** Clearing a day keeps its metadata unless told otherwise. *)
Example clear_day_lengths :
  let self :=
    state (set_tags pd_Timestamp_iso
             (state (add_day pd_Timestamp_iso ChangeSet_new
                       (PStr "2020-01-01") holiday_raw))
             (PStr "2020-01-01") (PList [PStr "x"])) in
  ChangeSet_len self = 2%nat
  ∧ ChangeSet_len (state (clear_day pd_Timestamp_iso self (PStr "2020-01-01") false))
    = 1%nat
  ∧ ChangeSet_len (state (clear_day pd_Timestamp_iso self (PStr "2020-01-01") true))
    = 0%nat.
Proof. repeat split; vm_compute; reflexivity. Qed.

(** ** Setting tags *)

Lemma validate_all_str l : validate_all validate_str (PStr <$> l) = Ok l.
Proof.
  apply validate_all_Ok. induction l; csimpl; by constructor.
Qed.

(** The validated tags, handed on as a value, validate to themselves. *)
Lemma validate_Tags_value t : validate_Tags (Tags_value t) = Ok t.
Proof.
  destruct t as [l|]; [|done]. simpl. by rewrite validate_all_str.
Qed.

Lemma set_tags_body_valid self d v t :
  validate_Tags v = Ok t → set_tags_body self d v = Return (tagged self d t).
Proof.
  intros Hv. unfold set_tags_body, DateMeta_set_tags, tagged. rewrite Hv.
  unfold mbind, Result_bind. by destruct (bool_decide _).
Qed.

Lemma set_tags_valid pd self date d v t :
  TimestampLike pd date = Ok d → validate_Tags v = Ok t →
  set_tags pd self date v = Return (tagged self d t).
Proof.
  intros Hd Hv. unfold set_tags. rewrite Hd, Hv. simpl.
  apply set_tags_body_valid, validate_Tags_value.
Qed.

Lemma tagged_other self d t d' :
  d' ≠ d → Py.get d' (meta (tagged self d t)) = Py.get d' (meta self).
Proof.
  intros Hne. unfold tagged. destruct (bool_decide _); simpl.
  - by apply get_setitem_ne.
  - by apply get_pop_ne.
Qed.

Lemma tagged_get self d t :
  let m1 := DateMeta_canonicalize t
              (comment (default DateMeta_default (Py.get d (meta self)))) in
  Py.get d (meta (tagged self d t))
  = if bool_decide (0 < DateMeta_len m1)%nat then Some m1 else None.
Proof.
  unfold tagged. simpl. destruct (bool_decide _); simpl.
  - apply get_setitem_eq.
  - apply get_pop_eq.
Qed.

(** C5: with valid tags [set_tags] succeeds; what it stores under the date
    has the tags sorted strictly ascending (so without duplicates) and with
    the elements given; non-empty tags are stored; with no tags and no
    comment recorded for the date, the date is absent afterwards; no record
    of size 0 is stored under the date, the other dates are left alone, and
    so a mapping without a record of size 0 stays without one. *)
Theorem C5_set_tags_canonical pd self date d v t :
  TimestampLike pd date = Ok d →
  validate_Tags v = Ok t →
  let T := sorted_set String.leb (default [] t) in
  ∃ self',
    set_tags pd self date v = Return self'
    ∧ StronglySorted (strictly String.leb) T
    ∧ (∀ x, x ∈ T ↔ x ∈ default [] t)
    ∧ (T ≠ [] → ∃ m, Py.get d (meta self') = Some m ∧ tags m = T)
    ∧ (default [] t = [] → comment_at d self = None →
       Py.get d (meta self') = None)
    ∧ (∀ m, Py.get d (meta self') = Some m →
       tags m = T ∧ (0 < DateMeta_len m)%nat)
    ∧ (∀ d', d' ≠ d → Py.get d' (meta self') = Py.get d' (meta self))
    ∧ ((∀ d' m, Py.get d' (meta self) = Some m → (0 < DateMeta_len m)%nat) →
       ∀ d' m, Py.get d' (meta self') = Some m → (0 < DateMeta_len m)%nat).
Proof.
  intros Hd Hv T. exists (tagged self d t).
  split; [by apply set_tags_valid|].
  split; [apply sorted_set_strictly; apply _|].
  split; [intros x; apply elem_of_sorted_set; apply _|].
  pose proof (tagged_get self d t) as Hget. simpl in Hget.
  set (m1 := DateMeta_canonicalize t _) in Hget.
  assert (Htags : tags m1 = T) by apply DateMeta_canonicalize_tags.
  split; [|split; [|split]].
  - intros HT. exists m1. split; [|done]. rewrite Hget.
    rewrite bool_decide_eq_true_2; [done|]. unfold DateMeta_len.
    rewrite Htags. destruct T; [done|simpl; lia].
  - intros Ht Hc. rewrite Hget, bool_decide_eq_false_2; [done|].
    assert (Hcm : comment m1 = None).
    { unfold m1, comment_at in *.
      destruct (Py.get d (meta self)) as [m0|]; simpl in *;
        [rewrite Hc|]; by destruct t as [[|]|]. }
    unfold DateMeta_len. rewrite Htags, Hcm. unfold T.
    rewrite Ht, sorted_set_nil by apply _. simpl. lia.
  - intros m Hm. rewrite Hget in Hm. case_bool_decide; by simplify_eq.
  - split; [intros d' Hne; by apply tagged_other|].
    intros Hinv d' m. destruct (decide (d' = d)) as [->|Hne].
    + rewrite Hget. case_bool_decide; intros; by simplify_eq.
    + rewrite tagged_other by done. apply Hinv.
Qed.

Lemma C5_set_tags_canonical_witness :
  ∃ self',
    set_tags pd_Timestamp_iso ChangeSet_new (PStr "2020-01-01")
      (PList [PStr "foo"; PStr "bar"; PStr "foo"]) = Return self'
    ∧ (∃ m, Py.get day_2020_01_01 (meta self') = Some m
            ∧ tags m = ["bar"; "foo"]).
Proof.
  destruct (C5_set_tags_canonical pd_Timestamp_iso ChangeSet_new
              (PStr "2020-01-01") day_2020_01_01
              (PList [PStr "foo"; PStr "bar"; PStr "foo"])
              (Some ["foo"; "bar"; "foo"]) eq_refl eq_refl)
    as (self' & Hret & _ & _ & Hstored & _).
  exists self'. split; [exact Hret|]. apply Hstored. vm_compute. discriminate.
Defined.

(** With no tags, or [None], and no comment the date is absent afterwards. *)
Example set_tags_empty_absent :
  set_tags pd_Timestamp_iso ChangeSet_new (PStr "2020-01-01") (PList [])
    = Return ChangeSet_new
  ∧ set_tags pd_Timestamp_iso ChangeSet_new (PStr "2020-01-01") PNone
    = Return ChangeSet_new.
Proof. split; reflexivity. Qed.

(** ** Comments are left alone *)

Lemma DateMeta_canonicalize_keeps_comment t m :
  comment_canonical m →
  comment (DateMeta_canonicalize t (comment m)) = comment m.
Proof.
  intros Hc. destruct (comment m) as [c|] eqn:Hm; [|done].
  apply DateMeta_canonicalize_comment. intros c' [= <-]. by apply Hc.
Qed.

Lemma comment_canonical_default : comment_canonical DateMeta_default.
Proof. by intros c. Qed.

Lemma comment_canonical_at self d :
  Forall (λ kv, comment_canonical kv.2) (meta self) →
  comment_canonical (default DateMeta_default (Py.get d (meta self))).
Proof.
  intros Hall. destruct (Py.get d (meta self)) as [m|] eqn:Hg; simpl.
  - apply get_Some_elem in Hg.
    by apply (proj1 (Forall_forall _ _) Hall) in Hg.
  - apply comment_canonical_default.
Qed.

Lemma tagged_comment_at self d t d' :
  Forall (λ kv, comment_canonical kv.2) (meta self) →
  comment_at d' (tagged self d t) = comment_at d' self.
Proof.
  intros Hall. unfold comment_at.
  destruct (decide (d' = d)) as [->|Hne]; [|by rewrite tagged_other].
  rewrite tagged_get.
  pose proof (DateMeta_canonicalize_keeps_comment t _
                (comment_canonical_at self d Hall)) as Hkeep.
  set (m1 := DateMeta_canonicalize t _) in *. clearbody m1.
  assert (Hm0 : Py.get d (meta self) ≫= comment
                = comment (default DateMeta_default (Py.get d (meta self)))).
  { by destruct (Py.get d (meta self)). }
  rewrite Hm0, <-Hkeep. case_bool_decide as Hlen; [reflexivity|]. simpl.
  unfold DateMeta_len in Hlen. destruct (comment m1); [lia|reflexivity].
Qed.

(** C10: [set_tags] leaves the comment of every date as it was, whatever the
    tags and whether it returns or raises; and when a comment is recorded
    for the date, [set_tags] with [None] or with no tags succeeds and leaves
    the date in [meta] with an empty tag list and that comment.  The stored
    comments are taken to be as the [DateMeta] validator leaves them. *)
Theorem C10_set_tags_keeps_comment pd self date d v :
  TimestampLike pd date = Ok d →
  Forall (λ kv, comment_canonical kv.2) (meta self) →
  (∀ d', comment_at d' (state (set_tags pd self date v)) = comment_at d' self)
  ∧ (∀ c, comment_at d self = Some c → v = PNone ∨ v = PList [] →
       ∃ self', set_tags pd self date v = Return self'
                ∧ Py.get d (meta self')
                  = Some {| tags := []; comment := Some c |}).
Proof.
  intros Hd Hall. split.
  - intros d'. unfold set_tags. rewrite Hd.
    destruct (validate_Tags v) as [t|e] eqn:Hv; simpl; [|done].
    rewrite (set_tags_body_valid self d _ t) by apply validate_Tags_value.
    by apply tagged_comment_at.
  - intros c Hc Hv.
    assert (∃ t, validate_Tags v = Ok t ∧ default [] t = []) as (t & Ht & Hnil).
    { destruct Hv as [-> | ->]; [by exists None|by exists (Some [])]. }
    exists (tagged self d t). split; [by apply set_tags_valid|].
    rewrite tagged_get.
    pose proof (DateMeta_canonicalize_keeps_comment t _
                  (comment_canonical_at self d Hall)) as Hkeep.
    pose proof (DateMeta_canonicalize_tags t
                  (comment (default DateMeta_default (Py.get d (meta self)))))
      as Htags.
    set (m1 := DateMeta_canonicalize t _) in *. clearbody m1.
    assert (Hcm : comment m1 = Some c).
    { rewrite Hkeep. unfold comment_at in Hc.
      by destruct (Py.get d (meta self)). }
    rewrite Hnil, sorted_set_nil in Htags by apply _.
    rewrite bool_decide_eq_true_2
      by (unfold DateMeta_len; rewrite Hcm; lia).
    destruct m1 as [ts cm]. simpl in Htags, Hcm. by rewrite Htags, Hcm.
Qed.

Lemma C10_set_tags_keeps_comment_witness :
  let self :=
    {| add := []; remove := [];
       meta := [(day_2020_01_01,
                 {| tags := ["foo"]; comment := Some "exchange closed" |})] |} in
  ∃ self',
    set_tags pd_Timestamp_iso self (PStr "2020-01-01") PNone = Return self'
    ∧ Py.get day_2020_01_01 (meta self')
      = Some {| tags := []; comment := Some "exchange closed" |}.
Proof.
  intros self.
  assert (Hall : Forall (λ kv, comment_canonical kv.2) (meta self)).
  { constructor; [|constructor].
    intros c [= <-]. split; [reflexivity|discriminate]. }
  destruct (C10_set_tags_keeps_comment pd_Timestamp_iso self
              (PStr "2020-01-01") day_2020_01_01 PNone eq_refl Hall)
    as [_ Hkeep].
  apply (Hkeep "exchange closed"); [reflexivity|by left].
Defined.

(** ** Failure of [set_tags] *)







(** ** Validation of day properties *)

Lemma no_escape_Ok {A} (a : A) : no_escape (Ok a).
Proof. by intros e. Qed.

Lemma no_escape_ValidationError {A} : no_escape (@Raise A ValidationError).
Proof. by intros e [= <-]. Qed.

Lemma no_escape_bind {A B} (r : Result A) (k : A → Result B) :
  no_escape r → (∀ a, no_escape (k a)) → no_escape (r ≫= k).
Proof.
  intros Hr Hk. destruct r as [a|e]; [apply Hk|].
  intros e' [= <-]. by apply Hr.
Qed.

Lemma no_escape_collect {A B} (r1 : Result A) (r2 : Result B) :
  no_escape r1 → no_escape r2 → no_escape (collect r1 r2).
Proof.
  intros H1 H2. destruct r1 as [a|e1], r2 as [b|e2]; [done|..].
  - intros e [= <-]. by apply H2.
  - rewrite (H1 e1 eq_refl). by intros e [= <-].
  - rewrite (H1 e1 eq_refl), (H2 e2 eq_refl). by intros e [= <-].
Qed.

Lemma no_escape_required k fields : no_escape (required k fields).
Proof. unfold required. destruct (Py.get k fields); by intros e [=]. Qed.

Lemma no_escape_validate_str v : no_escape (validate_str v).
Proof. destruct v; by intros e [=]. Qed.

Lemma no_escape_validate_literal allowed v :
  no_escape (validate_literal allowed v).
Proof.
  unfold validate_literal. destruct (to_DayType v); [|by intros e [=]].
  case_bool_decide; by intros e [=].
Qed.

Lemma no_escape_forbid_extra names fields :
  no_escape (forbid_extra names fields).
Proof. unfold forbid_extra. destruct (forallb _ _); by intros e [=]. Qed.

Lemma validate_DayProps_no_escape fields : no_escape (validate_DayProps fields).
Proof.
  apply no_escape_bind; [|intros; apply no_escape_Ok].
  repeat apply no_escape_collect;
    try (apply no_escape_bind; [apply no_escape_required|intros]);
    auto using no_escape_validate_str, no_escape_validate_literal,
      no_escape_forbid_extra.
Qed.

Lemma validate_DayPropsWithTime_no_escape fields :
  no_escape (required "time" fields ≫= TimeLike) →
  no_escape (validate_DayPropsWithTime fields).
Proof.
  intros Htime. apply no_escape_bind; [|intros; apply no_escape_Ok].
  repeat apply no_escape_collect; try done;
    try (apply no_escape_bind; [apply no_escape_required|intros]);
    auto using no_escape_validate_str, no_escape_validate_literal,
      no_escape_forbid_extra.
Qed.

Lemma required_Ok k fields v :
  required k fields = Ok v ↔ Py.get k fields = Some v.
Proof.
  unfold required. destruct (Py.get k fields); split; by intros [= ->].
Qed.

Lemma validate_str_Ok v s : validate_str v = Ok s ↔ v = PStr s.
Proof. destruct v; split; by intros [= ->]. Qed.

Lemma validate_literal_Ok allowed v t :
  validate_literal allowed v = Ok t ↔ to_DayType v = Some t ∧ t ∈ allowed.
Proof.
  unfold validate_literal. destruct (to_DayType v) as [t'|].
  - case_bool_decide; split; try (by intros [= ->]); intros [[= ->] ?]; done.
  - split; [done|by intros []].
Qed.

Lemma forbid_extra_Ok names fields u :
  forbid_extra names fields = Ok u ↔
  ∀ k, k ∈ Py.keys fields → k ∈ names.
Proof.
  unfold forbid_extra.
  destruct (forallb _ _) eqn:Hall.
  - split; [intros _|by destruct u].
    intros k ([k' v] & -> & Hin)%list_elem_of_fmap.
    rewrite forallb_forall in Hall. apply list_elem_of_In, Hall in Hin.
    by apply bool_decide_eq_true in Hin.
  - split; [done|]. intros Hkeys. exfalso.
    assert (forallb (λ kv : string * PyVal, bool_decide (kv.1 ∈ names)) fields
            = true) as Htrue; [|congruence].
    apply forallb_forall. intros [k v] Hin%list_elem_of_In.
    apply bool_decide_eq_true, Hkeys. by apply (list_elem_of_fmap_2 fst) in Hin.
Qed.

Lemma try_formats_Some s t :
  try_formats s [fmt_HM; fmt_HMS] = Some t →
  strptime s fmt_HM = Some t ∨ strptime s fmt_HMS = Some t.
Proof.
  simpl. destruct (strptime s fmt_HM); [intros [= ->]; by left|].
  destruct (strptime s fmt_HMS); [intros [= ->]; by right|done].
Qed.

Lemma TimeLike_Ok v t :
  TimeLike v = Ok t →
  v = PTime t
  ∨ ∃ s, v = PStr s ∧ (strptime s fmt_HM = Some t ∨ strptime s fmt_HMS = Some t).
Proof.
  unfold TimeLike, _to_time. destruct v; try done.
  - destruct (try_formats s _) as [t'|] eqn:Hf; [|done].
    intros [= <-]. right. exists s. split; [done|]. by apply try_formats_Some.
  - intros [= <-]. by left.
Qed.

Lemma TimeLike_unparsable s :
  strptime s fmt_HM = None → strptime s fmt_HMS = None →
  TimeLike (PStr s) = Raise ValidationError.
Proof. intros H1 H2. unfold TimeLike, _to_time. simpl. by rewrite H1, H2. Qed.

Lemma types_disjoint t : t ∈ DayPropsWithTime_types → t ∉ DayProps_types.
Proof.
  intros Ht Hp. unfold DayPropsWithTime_types, DayProps_types in *.
  repeat (apply elem_of_cons in Ht as [->|Ht]);
    repeat (apply elem_of_cons in Hp as [?|Hp]; [done|]);
    by apply elem_of_nil in Hp || by apply elem_of_nil in Ht.
Qed.

Lemma validate_DayProps_Ok fields p :
  validate_DayProps fields = Ok p →
  ∃ n t tyv,
    p = DayProps n t
    ∧ Py.get "name" fields = Some (PStr n)
    ∧ Py.get "type" fields = Some tyv ∧ to_DayType tyv = Some t
    ∧ t ∈ DayProps_types
    ∧ ∀ k, k ∈ Py.keys fields → k ∈ ["name"; "type"].
Proof.
  unfold validate_DayProps.
  intros ([n [t u]] & [Hn [Ht Hx]%collect_Ok]%collect_Ok & [= <-])%bind_Ok.
  simpl in *.
  apply bind_Ok in Hn as (vn & Hgn%required_Ok & ->%validate_str_Ok).
  apply bind_Ok in Ht as (vt & Hgt%required_Ok & [Hty Hin]%validate_literal_Ok).
  pose proof (proj1 (forbid_extra_Ok _ _ _) Hx) as Hkeys. by exists n, t, vt.
Qed.

Lemma validate_DayPropsWithTime_Ok fields p :
  validate_DayPropsWithTime fields = Ok p →
  ∃ n t tm tyv tv,
    p = DayPropsWithTime n t tm
    ∧ Py.get "name" fields = Some (PStr n)
    ∧ Py.get "type" fields = Some tyv ∧ to_DayType tyv = Some t
    ∧ t ∈ DayPropsWithTime_types
    ∧ Py.get "time" fields = Some tv ∧ TimeLike tv = Ok tm
    ∧ ∀ k, k ∈ Py.keys fields → k ∈ ["name"; "type"; "time"].
Proof.
  unfold validate_DayPropsWithTime.
  intros ([n [t [tm u]]]
          & [Hn [Ht [Htm Hx]%collect_Ok]%collect_Ok]%collect_Ok
          & [= <-])%bind_Ok.
  simpl in *.
  apply bind_Ok in Hn as (vn & Hgn%required_Ok & ->%validate_str_Ok).
  apply bind_Ok in Ht as (vt & Hgt%required_Ok & [Hty Hin]%validate_literal_Ok).
  apply bind_Ok in Htm as (tv & Hgtm%required_Ok & Htime).
  pose proof (proj1 (forbid_extra_Ok _ _ _) Hx) as Hkeys.
  by exists n, t, tm, vt, tv.
Qed.

(** The mapping is dispatched on its [type] entry. *)
Lemma validate_DayPropsLike_dispatch v fields tyv t :
  fields_of v = Ok fields →
  Py.get "type" fields = Some tyv →
  to_DayType tyv = Some t →
  validate_DayPropsLike v
  = if bool_decide (t ∈ DayProps_types) then validate_DayProps fields
    else validate_DayPropsWithTime fields.
Proof.
  intros Hf Hg Ht. destruct v; try done.
  unfold validate_DayPropsLike. rewrite Hf. unfold mbind at 1, Result_bind at 1.
  replace (required "type" fields) with (Ok tyv)
    by (symmetry; by apply required_Ok).
  unfold mbind, Result_bind. by rewrite Ht.
Qed.

(** C7: for a mapping whose [type] entry names the day type [t]: if
    validation succeeds the properties have that type, every key is one of
    [name], [type], [time], a plain type comes with no [time] entry, and a
    type with time comes with a [time] entry that is a native time or a string
    parsed by one of the two formats; a type with time and no [time] entry,
    or with a string that neither format parses, is a validation error; a
    plain type with a [time] entry is a validation error; and any key other
    than the three makes validation fail. *)
Theorem C7_day_props_validation v fields tyv t :
  fields_of v = Ok fields →
  Py.get "type" fields = Some tyv →
  to_DayType tyv = Some t →
  (∀ p, validate_DayPropsLike v = Ok p →
     props_type p = t
     ∧ (∀ k, k ∈ Py.keys fields → k ∈ ["name"; "type"; "time"])
     ∧ match p with
       | DayProps n _ =>
           t ∈ DayProps_types
           ∧ Py.get "name" fields = Some (PStr n)
           ∧ Py.get "time" fields = None
       | DayPropsWithTime n _ tm =>
           t ∈ DayPropsWithTime_types
           ∧ Py.get "name" fields = Some (PStr n)
           ∧ ∃ tv, Py.get "time" fields = Some tv
                   ∧ (tv = PTime tm
                      ∨ ∃ s, tv = PStr s
                             ∧ (strptime s fmt_HM = Some tm
                                ∨ strptime s fmt_HMS = Some tm))
       end)
  ∧ (t ∈ DayPropsWithTime_types → Py.get "time" fields = None →
     validate_DayPropsLike v = Raise ValidationError)
  ∧ (t ∈ DayPropsWithTime_types →
     ∀ s, Py.get "time" fields = Some (PStr s) →
          strptime s fmt_HM = None → strptime s fmt_HMS = None →
     validate_DayPropsLike v = Raise ValidationError)
  ∧ (t ∈ DayProps_types → Py.get "time" fields ≠ None →
     validate_DayPropsLike v = Raise ValidationError)
  ∧ (∀ k, k ∈ Py.keys fields → k ∉ ["name"; "type"; "time"] →
     ∃ e, validate_DayPropsLike v = Raise e).
Proof.
  intros Hf Hg Ht.
  pose proof (validate_DayPropsLike_dispatch v fields tyv t Hf Hg Ht) as Hv.
  assert (Hshape : ∀ p, validate_DayPropsLike v = Ok p →
     props_type p = t
     ∧ (∀ k, k ∈ Py.keys fields → k ∈ ["name"; "type"; "time"])
     ∧ match p with
       | DayProps n _ =>
           t ∈ DayProps_types
           ∧ Py.get "name" fields = Some (PStr n)
           ∧ Py.get "time" fields = None
       | DayPropsWithTime n _ tm =>
           t ∈ DayPropsWithTime_types
           ∧ Py.get "name" fields = Some (PStr n)
           ∧ ∃ tv, Py.get "time" fields = Some tv
                   ∧ (tv = PTime tm
                      ∨ ∃ s, tv = PStr s
                             ∧ (strptime s fmt_HM = Some tm
                                ∨ strptime s fmt_HMS = Some tm))
       end).
  { intros p. rewrite Hv. case_bool_decide as Hplain.
    - intros (n & t' & tyv' & -> & Hn & Hg' & Ht' & Hin & Hkeys)
        %validate_DayProps_Ok.
      assert (t' = t) as -> by congruence.
      split; [done|]. split.
      + intros k Hk%Hkeys. rewrite !elem_of_cons in *. tauto.
      + split; [done|]. split; [done|]. apply get_None.
        intros Hk%Hkeys. rewrite !elem_of_cons, elem_of_nil in Hk.
        intuition discriminate.
    - intros (n & t' & tm & tyv' & tv & -> & Hn & Hg' & Ht' & Hin & Hgt
              & Htm%TimeLike_Ok & Hkeys)%validate_DayPropsWithTime_Ok.
      assert (t' = t) as -> by congruence.
      split; [done|]. split; [done|]. split; [done|]. split; [done|].
      by exists tv. }
  split; [exact Hshape|]. split; [|split; [|split]].
  - intros Htimed Hnone. rewrite Hv.
    rewrite bool_decide_eq_false_2 by (by apply types_disjoint).
    destruct (validate_DayPropsWithTime fields) as [p|e] eqn:Hr.
    + apply validate_DayPropsWithTime_Ok in Hr
        as (? & ? & ? & ? & tv & _ & _ & _ & _ & _ & Hgt & _). congruence.
    + f_equal. apply (validate_DayPropsWithTime_no_escape fields); [|done].
      unfold required. rewrite Hnone. apply no_escape_ValidationError.
  - intros Htimed s Hs H1 H2. rewrite Hv.
    rewrite bool_decide_eq_false_2 by (by apply types_disjoint).
    pose proof (TimeLike_unparsable s H1 H2) as Hbad.
    destruct (validate_DayPropsWithTime fields) as [p|e] eqn:Hr.
    + apply validate_DayPropsWithTime_Ok in Hr
        as (? & ? & ? & ? & tv & _ & _ & _ & _ & _ & Hgt & Htm & _).
      congruence.
    + f_equal. apply (validate_DayPropsWithTime_no_escape fields); [|done].
      unfold required. rewrite Hs. unfold mbind, Result_bind. rewrite Hbad.
      apply no_escape_ValidationError.
  - intros Hplain Htime. rewrite Hv. rewrite bool_decide_eq_true_2 by done.
    destruct (validate_DayProps fields) as [p|e] eqn:Hr.
    + exfalso. apply Htime.
      apply validate_DayProps_Ok in Hr as (? & ? & ? & _ & _ & _ & _ & _ & Hkeys).
      apply get_None. intros Hk%Hkeys.
      rewrite !elem_of_cons, elem_of_nil in Hk. intuition discriminate.
    + f_equal. by apply (validate_DayProps_no_escape fields).
  - intros k Hk Hnot. destruct (validate_DayPropsLike v) as [p|e] eqn:Hr.
    + exfalso. apply Hnot. destruct (Hshape p eq_refl) as (_ & Hkeys & _).
      by apply Hkeys.
    + by exists e.
Qed.

Lemma C7_day_props_validation_witness :
  validate_DayPropsLike special_open_raw
    = Ok (DayPropsWithTime "Special Open" SPECIAL_OPEN (mk_time 10 0 0 0))
  ∧ ∀ p, validate_DayPropsLike special_open_raw = Ok p →
         props_type p = SPECIAL_OPEN.
Proof.
  split; [reflexivity|]. intros p Hp.
  destruct (C7_day_props_validation special_open_raw
              [("type", PStr "special_open"); ("name", PStr "Special Open");
               ("time", PStr "10:00")]
              (PStr "special_open") SPECIAL_OPEN eq_refl eq_refl eq_refl)
    as [Hshape _].
  by destruct (Hshape p Hp).
Defined.

(** The rejected shapes of the test suite. *)
Example holiday_with_time_rejected :
  validate_DayPropsLike
    (PDict [(PStr "type", PStr "holiday"); (PStr "name", PStr "Holiday");
            (PStr "time", PStr "10:00")]) = Raise ValidationError.
Proof. reflexivity. Qed.

Example special_open_without_time_rejected :
  validate_DayPropsLike
    (PDict [(PStr "type", PStr "special_open"); (PStr "name", PStr "Special Open");
            (PStr "foo", PStr "10:00")]) = Raise ValidationError.
Proof. reflexivity. Qed.

Example holiday_with_unknown_field_rejected :
  validate_DayPropsLike
    (PDict [(PStr "type", PStr "holiday"); (PStr "name", PStr "Holiday");
            (PStr "foo", PStr "bar")]) = Raise ValidationError.
Proof. reflexivity. Qed.

Example special_close_with_seconds_accepted :
  validate_DayPropsLike
    (PDict [(PStr "type", PDayType SPECIAL_CLOSE); (PStr "name", PStr "Special Close");
            (PStr "time", PStr "16:00:00")])
  = Ok (DayPropsWithTime "Special Close" SPECIAL_CLOSE (mk_time 16 0 0 0)).
Proof. reflexivity. Qed.

(** ** Dates as keys *)









(** ** Serialising and parsing again *)

Lemma validate_dump_DayPropsLike p :
  DayPropsLike_valid p → validate_DayPropsLike (dump_DayPropsLike p) = Ok p.
Proof.
  destruct p as [n t|n t tm]; simpl; intros Ht;
    destruct t; try reflexivity; exfalso; revert Ht;
    unfold DayProps_types, DayPropsWithTime_types;
    rewrite !elem_of_cons, elem_of_nil; intuition discriminate.
Qed.

Lemma validate_dump_DateMeta m :
  DateMeta_canonical m → validate_DateMeta (dump_DateMeta m) = Ok m.
Proof.
  intros Hm. unfold dump_DateMeta, validate_DateMeta.
  simpl fields_of. unfold mbind at 1, Result_bind at 1.
  unfold validate_DateMeta_fields. simpl Py.get. cbv beta iota.
  change (PList (PStr <$> tags m)) with (Tags_value (Some (tags m))).
  rewrite validate_Tags_value.
  replace (validate_comment _) with (Ok (comment m))
    by (by destruct (comment m)).
  replace (forbid_extra _ _) with (Ok ()) by reflexivity.
  simpl. by rewrite DateMeta_canonicalize_fixed.
Qed.

Lemma validate_all_dump_items pd {V} (f : PyVal → Result V) (dump : V → PyVal)
    (l : list (Z * V)) :
  Forall (λ kv, f (dump kv.2) = Ok kv.2) l →
  validate_all (validate_item pd f) ((λ kv, (PTimestamp kv.1, dump kv.2)) <$> l)
  = Ok l.
Proof.
  intros Hl. apply validate_all_Ok.
  induction Hl as [|[k v] l Hv Hl IH]; csimpl; constructor; [|done].
  unfold validate_item. simpl in *. by rewrite Hv.
Qed.

Lemma validate_all_dump_dates pd (l : list Z) :
  validate_all (TimestampLike pd) (PTimestamp <$> l) = Ok l.
Proof. apply validate_all_Ok. induction l; csimpl; by constructor. Qed.

(** C4: serialising a valid change set and parsing the result gives a change
    set that is equal to it (it is the same change set), and serialising
    that one gives the same mapping again. *)
Theorem C4_dump_validate_roundtrip pd c :
  ChangeSet_valid c →
  ∃ c',
    validate_ChangeSet pd (model_dump c) = Ok c'
    ∧ ChangeSet_eq c' c = true
    ∧ c' = c
    ∧ model_dump c' = model_dump c.
Proof.
  intros (Hcanon & Hadd & Hmeta).
  assert (Hparse : validate_ChangeSet pd (model_dump c) = Ok c).
  { unfold validate_ChangeSet, model_dump.
    simpl fields_of. unfold mbind at 1, Result_bind at 1.
    simpl Py.get. cbv beta iota. unfold validate_dict, validate_list.
    rewrite (validate_all_dump_items pd validate_DayPropsLike dump_DayPropsLike).
    2:{ eapply Forall_impl; [exact Hadd|]. intros kv.
        apply validate_dump_DayPropsLike. }
    rewrite (validate_all_dump_items pd validate_DateMeta dump_DateMeta).
    2:{ eapply Forall_impl; [exact Hmeta|]. intros kv.
        apply validate_dump_DateMeta. }
    rewrite validate_all_dump_dates.
    destruct Hcanon as (Ha & Hr & Hm).
    destruct (keys_ascending _ Ha) as [Hnda _].
    destruct (keys_ascending _ Hm) as [Hndm _].
    unfold mbind, Result_bind. rewrite !of_items_NoDup by done.
    replace (forbid_extra _ _) with (Ok ()) by reflexivity. simpl.
    f_equal. transitivity (ChangeSet_canonicalize c); [by destruct c|].
    by apply ChangeSet_canonicalize_fixed. }
  exists c. split; [done|]. split; [|done].
  unfold ChangeSet_eq. by rewrite !bool_decide_eq_true_2.
Qed.

Lemma C4_dump_validate_roundtrip_witness :
  let c :=
    {| add := [(day_2020_01_01, DayProps "H" HOLIDAY)];
       remove := [day_2020_01_02];
       meta := [(day_2020_01_01, {| tags := ["a"; "b"]; comment := None |})] |} in
  ∃ c', validate_ChangeSet pd_Timestamp_iso (model_dump c) = Ok c'
        ∧ ChangeSet_eq c' c = true
        ∧ c' = c
        ∧ model_dump c' = model_dump c.
Proof.
  intros c.
  apply (C4_dump_validate_roundtrip pd_Timestamp_iso c).
  split; [|split].
  - repeat split; repeat constructor.
  - repeat constructor.
  - constructor; [|constructor]. split.
    + repeat constructor; discriminate.
    + by intros ?.
Defined.

(** The round trip of the specification: parsing the plain mapping gives the
    canonical change set. *)
Example parse_round_trip_scenario :
  validate_ChangeSet pd_Timestamp_iso
    (PDict [(PStr "add",
             PDict [(PStr "2020-01-01",
                     PDict [(PStr "type", PStr "holiday"); (PStr "name", PStr "H")])]);
            (PStr "remove", PList [PStr "2020-01-02"]);
            (PStr "meta",
             PDict [(PStr "2020-01-01",
                     PDict [(PStr "tags", PList [PStr "b"; PStr "a"; PStr "a"])])])])
  = Ok {| add := [(day_2020_01_01, DayProps "H" HOLIDAY)];
          remove := [day_2020_01_02];
          meta := [(day_2020_01_01, {| tags := ["a"; "b"]; comment := None |})] |}.
Proof. vm_compute. reflexivity. Qed.

(** Only [set_tags] drops empty records: a record without tags and comment
    given at construction is kept by the canonicalisation pass. *)
Example construction_keeps_empty_record :
  validate_ChangeSet pd_Timestamp_iso
    (PDict [(PStr "meta", PDict [(PStr "2020-01-01", PDict [])])])
  = Ok {| add := []; remove := [];
          meta := [(day_2020_01_01, {| tags := []; comment := None |})] |}.
Proof. vm_compute. reflexivity. Qed.

(** * Further properties of the module *)

(** ** More on dictionaries *)

Section dict_more.
Context {K V : Type} `{EqDecision K}.
Implicit Types (d : list (K * V)) (k : K) (v : V).

Lemma keys_pop k d : Py.keys (Py.pop k d) = filter (λ x, x ≠ k) (Py.keys d).
Proof.
unfold Py.pop. induction d as [|[k' v'] d IH]; [done|].
rewrite keys_cons, !filter_cons. simpl.
destruct (decide (k' ≠ k)); [rewrite keys_cons|]; by rewrite IH.
Qed.

(** With distinct keys, a lookup finds exactly the items of the dictionary. *)
Lemma get_Some_iff k v d :
  NoDup (Py.keys d) → Py.get k d = Some v ↔ (k, v) ∈ d.
Proof.
intros Hnd. split; [apply get_Some_elem|].
induction d as [|[k' v'] d IH]; [by intros ?%elem_of_nil|].
rewrite keys_cons in Hnd. apply NoDup_cons in Hnd as [Hk' Hnd]. simpl.
intros [[= -> ->]|Hin]%elem_of_cons.
- by rewrite decide_True.
- rewrite decide_False; [by apply IH|].
  intros ->. apply Hk'. by apply (list_elem_of_fmap_2 fst) in Hin.
Qed.

(** The order of the items does not matter to a lookup. *)
Lemma get_Permutation k d d' :
  NoDup (Py.keys d) → d ≡ₚ d' → Py.get k d = Py.get k d'.
Proof.
intros Hnd Hp.
assert (Hnd' : NoDup (Py.keys d')) by (unfold Py.keys; by rewrite <-Hp).
destruct (Py.get k d) as [v|] eqn:Hg.
- symmetry. apply get_Some_iff; [done|]. rewrite <-Hp. by apply get_Some_iff.
- symmetry. apply get_None. apply get_None in Hg.
  unfold Py.keys in *. by rewrite <-Hp.
Qed.
End dict_more.

Lemma StronglySorted_filter {A} (R : relation A) (P : A → Prop)
    `{∀ x, Decision (P x)} (l : list A) :
  StronglySorted R l → StronglySorted R (filter P l).
Proof.
induction 1 as [|x l Hl IH Hx]; [constructor|].
rewrite filter_cons. destruct (decide (P x)); [|done].
constructor; [done|]. apply Forall_forall.
intros y [_ Hy]%list_elem_of_filter. by apply (proj1 (Forall_forall _ _) Hx).
Qed.

(** Rebuilding a dictionary with distinct keys in key order keeps every
    lookup and the number of items. *)
Lemma canonical_items_get {V} (l : list (Z * V)) k :
  NoDup (Py.keys l) →
  Py.get k (Py.of_items (Py.sorted fst Z.leb l)) = Py.get k l.
Proof.
intros Hnd.
assert (Hp : Py.sorted fst Z.leb l ≡ₚ l) by apply sorted_Permutation.
rewrite of_items_NoDup by (unfold Py.keys; by rewrite Hp).
symmetry. by apply get_Permutation.
Qed.

Lemma canonical_items_length {V} (l : list (Z * V)) :
  NoDup (Py.keys l) →
  length (Py.of_items (Py.sorted fst Z.leb l)) = length l.
Proof.
intros Hnd.
assert (Hp : Py.sorted fst Z.leb l ≡ₚ l) by apply sorted_Permutation.
rewrite of_items_NoDup by (unfold Py.keys; by rewrite Hp). by rewrite Hp.
Qed.

(** ** Clearing a day *)

(** X1: for a date the converter accepts, [clear_day] returns; afterwards the
    date is no key of [add] and is not listed in [remove]; every other date
    keeps its entry in [add], its place in [remove] and its metadata; the
    metadata of the date goes exactly when [include_meta] is set. *)
Theorem X1_clear_day_effect pd self date d include_meta :
  TimestampLike pd date = Ok d →
  ∃ self',
    clear_day pd self date include_meta = Return self'
    ∧ Py.get d (add self') = None
    ∧ (d ∉ remove self')
    ∧ (∀ d', d' ≠ d →
         Py.get d' (add self') = Py.get d' (add self)
         ∧ (d' ∈ remove self' ↔ d' ∈ remove self)
         ∧ Py.get d' (meta self') = Py.get d' (meta self))
    ∧ (if include_meta then Py.get d (meta self') = None
       else meta self' = meta self).
Proof.
intros Hd. unfold clear_day. rewrite Hd. eexists. split; [reflexivity|].
simpl. split; [apply get_pop_eq|]. split.
{ intros [Hne _]%list_elem_of_filter. done. }
split.
- intros d' Hne. split; [by apply get_pop_ne|]. split.
  + rewrite list_elem_of_filter. tauto.
  + destruct include_meta; [by apply get_pop_ne|done].
- destruct include_meta; [apply get_pop_eq|done].
Qed.

Lemma X1_clear_day_effect_witness :
  ∃ self',
    clear_day pd_Timestamp_iso
      {| add := [(day_2020_01_01, DayProps "Holiday" HOLIDAY)];
         remove := [day_2020_01_01; day_2020_01_02]; meta := [] |}
      (PStr "2020-01-01") false = Return self'
    ∧ Py.get day_2020_01_01 (add self') = None
    ∧ (day_2020_01_01 ∉ remove self').
Proof.
destruct (X1_clear_day_effect pd_Timestamp_iso
            {| add := [(day_2020_01_01, DayProps "Holiday" HOLIDAY)];
               remove := [day_2020_01_01; day_2020_01_02]; meta := [] |}
            (PStr "2020-01-01") day_2020_01_01 false eq_refl)
  as (self' & Hret & Hadd & Hrem & _).
by exists self'.
Defined.

(** X2: [clear_day] skips re-validation, and rightly so: deleting a date from
    a change set in canonical form leaves it in canonical form. *)
Theorem X2_clear_day_keeps_canonical self d include_meta :
  canonical self → canonical (clear_day_body self d include_meta).
Proof.
intros (Ha & Hr & Hm). unfold canonical. simpl.
rewrite keys_pop. split; [by apply StronglySorted_filter|].
split; [by apply StronglySorted_filter|].
destruct include_meta; [|done]. rewrite keys_pop.
by apply StronglySorted_filter.
Qed.

Lemma X2_clear_day_keeps_canonical_witness :
  canonical
    (clear_day_body
       {| add := [(day_2020_01_01, DayProps "Holiday" HOLIDAY)];
          remove := [day_2020_01_01; day_2020_01_02]; meta := [] |}
       day_2020_01_01 true).
Proof.
apply X2_clear_day_keeps_canonical.
repeat split; simpl; repeat constructor.
Defined.

(** X3: clearing a day twice is clearing it once, and days can be cleared in
    either order. *)
Theorem X3_clear_day_idempotent_commutes self d1 d2 b :
  clear_day_body (clear_day_body self d1 b) d1 b = clear_day_body self d1 b
  ∧ clear_day_body (clear_day_body self d1 b) d2 b
    = clear_day_body (clear_day_body self d2 b) d1 b.
Proof.
unfold clear_day_body, Py.pop. simpl.
split; destruct b; rewrite !list_filter_filter; f_equal;
  apply list_filter_iff; tauto.
Qed.

(** ** Adding and removing days *)

Lemma keys_snoc {V} (l : list (Z * V)) k v :
  Py.keys (l ++ [(k, v)]) = Py.keys l ++ [k].
Proof. unfold Py.keys. by rewrite fmap_app. Qed.

Lemma NoDup_keys_snoc {V} (l : list (Z * V)) k v :
  NoDup (Py.keys l) → k ∉ Py.keys l → NoDup (Py.keys (l ++ [(k, v)])).
Proof.
intros Hnd Hk. rewrite keys_snoc. apply NoDup_app. split; [done|].
split; [|apply NoDup_singleton].
intros x Hx ->%list_elem_of_singleton. done.
Qed.

(** X4: adding valid properties under a date that is no key of [add] yet
    succeeds; the date then maps to the properties, every other date keeps
    its entry, [add] has one item more, [remove] lists the same dates, and
    the change set is in canonical form. *)
Theorem X4_add_day_fresh pd self date props d p :
  TimestampLike pd date = Ok d →
  validate_DayPropsLike props = Ok p →
  NoDup (Py.keys (add self)) →
  d ∉ Py.keys (add self) →
  ∃ self',
    add_day pd self date props = Return self'
    ∧ Py.get d (add self') = Some p
    ∧ (∀ d', d' ≠ d → Py.get d' (add self') = Py.get d' (add self))
    ∧ length (add self') = S (length (add self))
    ∧ (∀ x, x ∈ remove self' ↔ x ∈ remove self)
    ∧ canonical self'.
Proof.
intros Hd Hp Hnd Hfresh. unfold add_day. rewrite Hd, Hp. simpl.
unfold add_day_body. rewrite (proj2 (contains_false d (add self))) by done.
eexists. split; [reflexivity|].
assert (Hnd' : NoDup (Py.keys (Py.setitem d p (add self)))).
{ rewrite setitem_absent by done. by apply NoDup_keys_snoc. }
simpl. split; [|split; [|split; [|split]]].
- rewrite canonical_items_get by done. apply get_setitem_eq.
- intros d' Hne. rewrite canonical_items_get by done.
  by apply get_setitem_ne.
- rewrite canonical_items_length by done.
  rewrite setitem_absent by done. rewrite length_app. simpl. lia.
- intros x. apply elem_of_sorted_set; apply _.
- apply (ChangeSet_canonicalize_canonical
           (set_add self (Py.setitem d p (add self)))).
Qed.

Lemma X4_add_day_fresh_witness :
  ∃ self',
    add_day pd_Timestamp_iso
      {| add := [(day_2020_01_02, DayProps "Holiday" HOLIDAY)];
         remove := []; meta := [] |}
      (PStr "2020-01-01") special_open_raw = Return self'
    ∧ Py.get day_2020_01_01 (add self')
      = Some (DayPropsWithTime "Special Open" SPECIAL_OPEN (mk_time 10 0 0 0)).
Proof.
destruct (X4_add_day_fresh pd_Timestamp_iso
            {| add := [(day_2020_01_02, DayProps "Holiday" HOLIDAY)];
               remove := []; meta := [] |}
            (PStr "2020-01-01") special_open_raw day_2020_01_01
            (DayPropsWithTime "Special Open" SPECIAL_OPEN (mk_time 10 0 0 0))
            eq_refl eq_refl)
  as (self' & Hret & Hget & _).
- apply NoDup_singleton.
- simpl. intros [?|?%elem_of_nil]%elem_of_cons; done.
- by exists self'.
Defined.

(** Two dictionaries in ascending key order with the same items are the same
    dictionary. *)
Lemma ascending_items_unique {V} (l1 l2 : list (Z * V)) :
  NoDup (Py.keys l1) →
  StronglySorted (ascending fst Z.leb) l1 →
  StronglySorted (ascending fst Z.leb) l2 →
  l1 ≡ₚ l2 → l1 = l2.
Proof.
intros Hnd H1 H2 Hp.
apply (StronglySorted_unique_strong (ascending fst Z.leb)); [|done..].
intros [k1 v1] [k2 v2] Hin1 Hin2 Hle1 Hle2. rewrite <-Hp in Hin2.
unfold ascending in *. simpl in *. assert (k1 = k2) as -> by lia.
f_equal. apply (get_Some_iff k2 v1 l1 Hnd) in Hin1.
apply (get_Some_iff k2 v2 l1 Hnd) in Hin2. congruence.
Qed.

(** X5: on a change set in canonical form, [clear_day] undoes [add_day]: if
    the date was neither a key of [add] nor listed in [remove], adding it
    and clearing it gives the change set back. *)
Theorem X5_clear_day_undoes_add_day pd self date props d p :
  TimestampLike pd date = Ok d →
  validate_DayPropsLike props = Ok p →
  canonical self →
  d ∉ Py.keys (add self) →
  d ∉ remove self →
  ∃ self',
    add_day pd self date props = Return self'
    ∧ clear_day pd self' date false = Return self.
Proof.
intros Hd Hp (Ha & Hr & Hm) Hfresh Hrem. unfold add_day. rewrite Hd, Hp. simpl.
unfold add_day_body. rewrite (proj2 (contains_false d (add self))) by done.
eexists. split; [reflexivity|]. unfold clear_day. rewrite Hd. f_equal.
destruct (keys_ascending _ Ha) as [Hnd Hasc].
destruct self as [a r m]. unfold clear_day_body. simpl in *.
rewrite (of_items_sorted_fixed m) by done.
rewrite (sorted_set_fixed Z.leb r) by (by apply strictly_Z_lt).
assert (Hnd' : NoDup (Py.keys (a ++ [(d, p)]))) by (by apply NoDup_keys_snoc).
assert (Hp' : Py.sorted fst Z.leb (a ++ [(d, p)]) ≡ₚ a ++ [(d, p)])
  by apply sorted_Permutation.
rewrite setitem_absent by done.
rewrite of_items_NoDup by (unfold Py.keys; by rewrite Hp').
f_equal.
- symmetry. apply ascending_items_unique; [done..| |].
  + apply StronglySorted_filter, sorted_StronglySorted, _.
  + unfold Py.pop. rewrite Hp', filter_app.
    rewrite filter_cons, decide_False by (simpl; tauto).
    rewrite filter_nil, app_nil_r. symmetry. apply reflexive_eq.
    by apply (pop_absent d a).
- clear -Hrem. induction r as [|x r IH]; [done|].
  apply not_elem_of_cons in Hrem as [Hne Hrem].
  rewrite filter_cons, decide_True by congruence. by rewrite IH.
Qed.

Lemma X5_clear_day_undoes_add_day_witness :
  let self :=
    {| add := [(day_2020_01_02, DayProps "Holiday" HOLIDAY)];
       remove := [day_2020_01_03]; meta := [] |} in
  ∃ self',
    add_day pd_Timestamp_iso self (PStr "2020-01-01") holiday_raw = Return self'
    ∧ clear_day pd_Timestamp_iso self' (PStr "2020-01-01") false = Return self.
Proof.
intros self.
apply (X5_clear_day_undoes_add_day pd_Timestamp_iso self (PStr "2020-01-01")
         holiday_raw day_2020_01_01 (DayProps "Holiday" HOLIDAY)).
- reflexivity.
- reflexivity.
- repeat split; simpl; repeat constructor.
- simpl. intros [?|?%elem_of_nil]%elem_of_cons; done.
- simpl. intros [?|?%elem_of_nil]%elem_of_cons; done.
Defined.

Lemma sorted_set_Permutation `{Countable K} (le : K → K → bool) (l : list K) :
  NoDup l → sorted_set le l ≡ₚ l.
Proof.
intros Hnd. unfold sorted_set. rewrite sorted_Permutation.
apply NoDup_Permutation; [apply NoDup_elements|done|].
intros x. by rewrite elem_of_elements, elem_of_list_to_set.
Qed.

(** X6: on a change set in canonical form [remove_day] succeeds, whether or
    not the date is a key of [add]; it leaves [add] and [meta] as they are;
    [remove] is strictly ascending afterwards and lists the date together
    with the dates it listed before; it grows by one exactly when the date
    was not listed. *)
Theorem X6_remove_day_on_canonical pd self date d :
  TimestampLike pd date = Ok d →
  canonical self →
  ∃ self',
    remove_day pd self date = Return self'
    ∧ add self' = add self
    ∧ meta self' = meta self
    ∧ StronglySorted Z.lt (remove self')
    ∧ (∀ x, x ∈ remove self' ↔ x = d ∨ x ∈ remove self)
    ∧ length (remove self')
      = if bool_decide (d ∈ remove self) then length (remove self)
        else S (length (remove self)).
Proof.
intros Hd (Ha & Hr & Hm). unfold remove_day. rewrite Hd.
eexists. split; [reflexivity|]. simpl.
split; [by apply of_items_sorted_fixed|].
split; [by apply of_items_sorted_fixed|].
split; [apply strictly_Z_lt, sorted_set_strictly; apply _|].
split.
- intros x. rewrite elem_of_sorted_set by apply _.
  rewrite elem_of_app, list_elem_of_singleton. tauto.
- apply strictly_Z_lt in Hr. case_bool_decide as Hin.
  + f_equal. rewrite <-(sorted_set_fixed Z.leb (remove self)) at 2 by done.
    apply sorted_set_ext; try apply _. intros x.
    rewrite elem_of_app, list_elem_of_singleton. split; [|by left].
    by intros [?| ->].
  + destruct (strictly_ascending Z.leb _ Hr) as [Hnd _].
    rewrite sorted_set_Permutation, length_app; [simpl; lia|].
    apply NoDup_app. split; [done|]. split; [|apply NoDup_singleton].
    by intros x Hx ->%list_elem_of_singleton.
Qed.

Lemma X6_remove_day_on_canonical_witness :
  let self :=
    {| add := [(day_2020_01_01, DayProps "Holiday" HOLIDAY)];
       remove := [day_2020_01_02]; meta := [] |} in
  ∃ self',
    remove_day pd_Timestamp_iso self (PStr "2020-01-01") = Return self'
    ∧ add self' = add self
    ∧ remove self' = [day_2020_01_01; day_2020_01_02].
Proof.
intros self.
destruct (X6_remove_day_on_canonical pd_Timestamp_iso self (PStr "2020-01-01")
            day_2020_01_01 eq_refl)
  as (self' & Hret & Hadd & _).
- repeat split; simpl; repeat constructor.
- exists self'. split; [exact Hret|]. split; [exact Hadd|].
  injection Hret as <-. reflexivity.
Defined.

(** X7: on a change set in canonical form, adding one date and listing
    another (or the same) for removal give the same change set in either
    order, and neither call raises. *)
Theorem X7_add_day_remove_day_commute pd self date1 props date2 d1 p d2 :
  TimestampLike pd date1 = Ok d1 →
  validate_DayPropsLike props = Ok p →
  TimestampLike pd date2 = Ok d2 →
  canonical self →
  d1 ∉ Py.keys (add self) →
  ∃ s1 s2 s,
    add_day pd self date1 props = Return s1
    ∧ remove_day pd s1 date2 = Return s
    ∧ remove_day pd self date2 = Return s2
    ∧ add_day pd s2 date1 props = Return s.
Proof.
intros Hd1 Hp Hd2 (Ha & Hr & Hm) Hfresh.
destruct self as [a r m]. simpl in *.
apply strictly_Z_lt in Hr.
set (a' := Py.of_items (Py.sorted fst Z.leb (Py.setitem d1 p a))).
exists {| add := a'; remove := r; meta := m |},
       {| add := a; remove := sorted_set Z.leb (r ++ [d2]); meta := m |},
       {| add := a'; remove := sorted_set Z.leb (r ++ [d2]); meta := m |}.
assert (Ha' : Py.of_items (Py.sorted fst Z.leb a') = a')
  by apply of_items_sorted_fixed, of_items_sorted.
unfold add_day, remove_day. rewrite Hd1, Hp, Hd2.
unfold collect, add_day_body, remove_day_body, model_validate,
  ChangeSet_canonicalize, set_add, set_remove.
cbn [add remove meta].
rewrite (proj2 (contains_false d1 a)) by done.
rewrite Ha', !(of_items_sorted_fixed m), (of_items_sorted_fixed a) by done.
rewrite (sorted_set_fixed Z.leb r) by done.
by rewrite (sorted_set_idem Z.leb (r ++ [d2])).
Qed.

Lemma X7_add_day_remove_day_commute_witness :
  let self :=
    {| add := [(day_2020_01_02, DayProps "Holiday" HOLIDAY)];
       remove := [day_2020_01_03]; meta := [] |} in
  ∃ s1 s2 s,
    add_day pd_Timestamp_iso self (PStr "2020-01-01") holiday_raw = Return s1
    ∧ remove_day pd_Timestamp_iso s1 (PStr "2020-01-01") = Return s
    ∧ remove_day pd_Timestamp_iso self (PStr "2020-01-01") = Return s2
    ∧ add_day pd_Timestamp_iso s2 (PStr "2020-01-01") holiday_raw = Return s.
Proof.
intros self.
apply (X7_add_day_remove_day_commute pd_Timestamp_iso self
         (PStr "2020-01-01") holiday_raw (PStr "2020-01-01")
         day_2020_01_01 (DayProps "Holiday" HOLIDAY) day_2020_01_01).
- reflexivity.
- reflexivity.
- reflexivity.
- repeat split; simpl; repeat constructor.
- simpl. intros [?|?%elem_of_nil]%elem_of_cons; done.
Defined.

(** ** More on [all_days] *)

(** X8: [all_days] without metadata is contained in [all_days] with
    metadata, and neither has more entries than the collections it is drawn
    from: at most [len(add) + len(remove)] without metadata and at most the
    length of the change set with it. *)
Theorem X8_all_days_bounds self :
  (∀ d, d ∈ all_days self false → d ∈ all_days self true)
  ∧ (length (all_days self false) ≤ length (add self) + length (remove self))%nat
  ∧ (length (all_days self true) ≤ ChangeSet_len self)%nat.
Proof.
assert (Hnd : ∀ b, NoDup (all_days self b)).
{ intros b. unfold all_days. rewrite sorted_Permutation. apply NoDup_elements. }
assert (Hin : ∀ b d, d ∈ all_days self b →
          d ∈ Py.keys (add self) ++ remove self
              ++ (if b then Py.keys (meta self) else [])).
{ intros b d. unfold all_days. rewrite elem_of_sorted, elem_of_elements.
  destruct b; rewrite ?elem_of_union, !elem_of_list_to_set, !elem_of_app;
    [tauto|]. rewrite elem_of_nil. tauto. }
split; [|split].
- intros d. unfold all_days.
  rewrite !elem_of_sorted, !elem_of_elements, !elem_of_union. tauto.
- pose proof (submseteq_length _ _
    (NoDup_submseteq _ _ (Hnd false) (Hin false))) as Hlen.
  rewrite !length_app in Hlen. unfold Py.keys in Hlen.
  rewrite length_fmap in Hlen. simpl in Hlen. lia.
- pose proof (submseteq_length _ _
    (NoDup_submseteq _ _ (Hnd true) (Hin true))) as Hlen.
  rewrite !length_app in Hlen. unfold Py.keys in Hlen.
  rewrite !length_fmap in Hlen. unfold ChangeSet_len. lia.
Qed.

(** ** More on [_to_time] *)

Lemma digit_bound c x : digit c = Some x → (x <= 9)%N.
Proof.
unfold digit. destruct (_ && _) eqn:Hc; [|done]. intros [= <-].
apply andb_true_iff in Hc as [_ Hc]. apply N.leb_le in Hc. lia.
Qed.

Lemma two_digits_bound ok bound s vr :
  (∀ x y, (x <= 9)%N → (y <= 9)%N → ok x y = true → (10 * x + y <= bound)%N) →
  vr ∈ two_digits ok s → (vr.1 <= bound)%N.
Proof.
intros Hok. unfold two_digits. destruct s as [|a [|b r]]; try by intros ?%elem_of_nil.
destruct (digit a) as [x|] eqn:Hx; [|by intros ?%elem_of_nil].
destruct (digit b) as [y|] eqn:Hy; [|by intros ?%elem_of_nil].
destruct (ok x y) eqn:Hxy; [|by intros ?%elem_of_nil].
intros ->%list_elem_of_singleton. simpl.
apply Hok; eauto using digit_bound.
Qed.

Lemma one_digit_bound s vr : vr ∈ one_digit s → (vr.1 <= 9)%N.
Proof.
unfold one_digit. destruct s as [|a r]; [by intros ?%elem_of_nil|].
destruct (digit a) as [x|] eqn:Hx; [|by intros ?%elem_of_nil].
intros ->%list_elem_of_singleton. simpl. eauto using digit_bound.
Qed.

Lemma alternatives_bound d s vr :
  vr ∈ alternatives d s →
  match d with
  | dH => (vr.1 <= 23)%N
  | dM => (vr.1 <= 59)%N
  | dS => (vr.1 <= 61)%N
  | dLit _ => vr.1 = 0%N
  end.
Proof.
destruct d; simpl; rewrite ?elem_of_app.
- intros [H|[H|H]].
  + eapply two_digits_bound in H; [done|]. intros x y _ _.
    rewrite andb_true_iff, N.eqb_eq, N.leb_le. lia.
  + eapply two_digits_bound in H; [done|]. intros x y _ ?.
    rewrite N.leb_le. lia.
  + apply one_digit_bound in H. lia.
- intros [H|H].
  + eapply two_digits_bound in H; [done|]. intros x y _ ?.
    rewrite N.leb_le. lia.
  + apply one_digit_bound in H. lia.
- intros [H|[H|H]].
  + eapply two_digits_bound in H; [done|]. intros x y _ _.
    rewrite andb_true_iff, N.eqb_eq, N.leb_le. lia.
  + eapply two_digits_bound in H; [done|]. intros x y _ ?.
    rewrite N.leb_le. lia.
  + apply one_digit_bound in H. lia.
- destruct s as [|a r]; [by intros ?%elem_of_nil|].
  case_bool_decide; [|by intros ?%elem_of_nil].
  by intros ->%list_elem_of_singleton.
Qed.

Lemma first_match_Some {A B} (f : A → option B) l y :
  first_match f l = Some y → ∃ x, x ∈ l ∧ f x = Some y.
Proof.
induction l as [|x l IH]; simpl; [done|].
destruct (f x) as [y'|] eqn:Hx.
- intros [= <-]. exists x. split; [left|done].
- intros (x' & Hin & Hx')%IH. exists x'. split; [by right|done].
Qed.

(** The fields a match collects stay within the bounds of their directives. *)
Lemma regex_match_bounds fmt s acc t r :
  (hour acc <= 23 ∧ minute acc <= 59 ∧ second acc <= 61
   ∧ microsecond acc = 0)%N →
  regex_match fmt s acc = Some (t, r) →
  (hour t <= 23 ∧ minute t <= 59 ∧ second t <= 61 ∧ microsecond t = 0)%N.
Proof.
revert s acc. induction fmt as [|d fmt IH]; intros s acc Hacc; simpl.
{ by intros [= <- <-]. }
intros ([v r'] & Hin%alternatives_bound & Hm)%first_match_Some.
simpl in *. eapply IH; [|exact Hm].
destruct d, acc; simpl in *; lia.
Qed.

Lemma strptime_in_range s fmt t : strptime s fmt = Some t → time_in_range t.
Proof.
unfold strptime. destruct (regex_match _ _ _) as [[t' r]|] eqn:Hm; [|done].
case_bool_decide; [|done].
destruct (second t' <=? 59)%N eqn:Hs; [|done]. intros [= <-].
apply regex_match_bounds in Hm; [|simpl; lia].
apply N.leb_le in Hs. unfold time_in_range. lia.
Qed.

(** X9: a time that [_to_time] makes of a string is a time of day: hour at
    most 23, minute and second at most 59, no fraction of a second.  In
    particular the seconds 60 and 61 that the pattern of the format admits
    are not accepted. *)
Theorem X9_to_time_in_range s t :
  _to_time (PStr s) = Ok t → time_in_range t.
Proof.
unfold _to_time. destruct (try_formats s _) as [t'|] eqn:Hf; [|done].
intros [= <-]. apply try_formats_Some in Hf as [Hf|Hf];
  by apply strptime_in_range in Hf.
Qed.

Lemma X9_to_time_in_range_witness :
  time_in_range (mk_time 9 5 0 0).
Proof. apply (X9_to_time_in_range "9:5"). reflexivity. Defined.

Example second_sixty_rejected :
  TimeLike (PStr "10:00:60") = Raise ValidationError.
Proof. reflexivity. Qed.

Lemma digit_digit_char n : (n <= 9)%N → digit (digit_char n) = Some n.
Proof.
intros Hn. unfold digit, digit_char.
rewrite N_ascii_embedding by lia.
replace ((48 <=? 48 + n) && (48 + n <=? 57))%N with true.
- f_equal. lia.
- symmetry. apply andb_true_iff. rewrite !N.leb_le. lia.
Qed.

Lemma div_mod_ten n :
  ∃ q r, (n / 10 = q ∧ n mod 10 = r ∧ n = 10 * q + r ∧ r < 10)%N.
Proof.
exists (n / 10)%N, (n mod 10)%N. split; [done|]. split; [done|].
split; [apply N.div_mod|apply N.mod_lt]; done.
Qed.

Lemma two_digits_two_digit ok n rest :
  (n <= 99)%N →
  two_digits ok (two_digit n ++ rest)
  = if ok (n / 10)%N (n mod 10)%N then [(n, rest)] else [].
Proof.
intros Hn.
change (two_digit n ++ rest)%string
  with (String (digit_char (n / 10)) (String (digit_char (n mod 10)) rest)).
destruct (div_mod_ten n) as (q & r & -> & -> & Hdm & Hlt).
unfold two_digits. rewrite !digit_digit_char by lia.
destruct (ok _ _); [|done]. by rewrite <-Hdm.
Qed.

Lemma first_match_head {A B} (f : A → option B) x l y :
  f x = Some y → first_match f (x :: l) = Some y.
Proof. intros Hx. simpl. by rewrite Hx. Qed.

(** A field written with two digits is read as its value, provided the rest
    of the format matches what follows. *)
Lemma regex_match_two_digit d fmt n rest acc res :
  match d with
  | dH => (n <= 23)%N
  | dM | dS => (n <= 59)%N
  | dLit _ => False
  end →
  regex_match fmt rest (store d n acc) = Some res →
  regex_match (d :: fmt) (two_digit n ++ rest) acc = Some res.
Proof.
intros Hn Hrest. simpl regex_match. unfold alternatives.
destruct d; [| | |done]; rewrite !two_digits_two_digit by lia;
  destruct (div_mod_ten n) as (q & r & Hq & Hr & Hdm & Hlt);
  cbv beta; rewrite ?Hq, ?Hr.
- destruct ((q =? 2) && (r <=? 3))%N eqn:E1.
  { by apply first_match_head. }
  destruct (q <=? 1)%N eqn:E2; [by apply first_match_head|].
  exfalso. apply andb_false_iff in E1.
  rewrite N.eqb_neq, !N.leb_gt in *. lia.
- replace (q <=? 5)%N with true by (symmetry; apply N.leb_le; lia).
  by apply first_match_head.
- destruct ((q =? 6) && (r <=? 1))%N eqn:E1.
  { by apply first_match_head. }
  replace (q <=? 5)%N with true by (symmetry; apply N.leb_le; lia).
  by apply first_match_head.
Qed.

Lemma regex_match_literal c fmt rest acc res :
  regex_match fmt rest acc = Some res →
  regex_match (dLit c :: fmt) (String c rest) acc = Some res.
Proof.
intros Hrest. simpl regex_match. unfold alternatives.
rewrite bool_decide_eq_true_2 by done. by apply first_match_head.
Qed.

Lemma append_assoc_cons a (s1 s2 : string) :
  (String a s1 ++ s2)%string = String a (s1 ++ s2)%string.
Proof. done. Qed.

Lemma regex_match_HM h m rest :
  (h <= 23)%N → (m <= 59)%N →
  regex_match fmt_HM (two_digit h ++ ":" ++ two_digit m ++ rest)
    (mk_time 0 0 0 0)
  = Some (mk_time h m 0 0, rest).
Proof.
intros Hh Hm. unfold fmt_HM.
apply regex_match_two_digit; [done|]. rewrite append_assoc_cons.
apply regex_match_literal. simpl (_ ++ _)%string at 1.
change (String.append EmptyString ?x) with x.
by apply regex_match_two_digit.
Qed.

(** X10: every time of day written [HH:MM] or [HH:MM:SS] with two digits per
    field is accepted by [_to_time] and read as that time. *)
Theorem X10_to_time_accepts h m s :
  (h <= 23)%N → (m <= 59)%N → (s <= 59)%N →
  _to_time (PStr (HH_MM h m)) = Ok (mk_time h m 0 0)
  ∧ _to_time (PStr (HH_MM_SS h m s)) = Ok (mk_time h m s 0).
Proof.
intros Hh Hm Hs. split.
- unfold _to_time, try_formats, strptime, HH_MM.
  pose proof (regex_match_HM h m EmptyString Hh Hm) as Hr.
  change (two_digit m ++ "")%string with (two_digit m) in Hr.
  by rewrite Hr.
- unfold _to_time, try_formats, strptime, HH_MM_SS.
  pose proof (regex_match_HM h m (":" ++ two_digit s) Hh Hm) as Hr.
  rewrite Hr. simpl bool_decide. cbv iota.
  assert (Hs' : regex_match fmt_HMS
            (two_digit h ++ ":" ++ two_digit m ++ ":" ++ two_digit s)
            (mk_time 0 0 0 0) = Some (mk_time h m s 0, EmptyString)).
  { unfold fmt_HMS. apply regex_match_two_digit; [done|].
    apply regex_match_literal. apply regex_match_two_digit; [done|].
    apply regex_match_literal.
    replace (two_digit s) with (two_digit s ++ "")%string
      by (unfold two_digit; done).
    by apply regex_match_two_digit. }
  rewrite Hs'. simpl. by rewrite (proj2 (N.leb_le s 59)) by done.
Qed.

Lemma X10_to_time_accepts_witness :
  _to_time (PStr "16:00") = Ok (mk_time 16 0 0 0)
  ∧ _to_time (PStr "16:00:30") = Ok (mk_time 16 0 30 0).
Proof. apply (X10_to_time_accepts 16 0 30); by vm_compute. Defined.

(** ** More on the validators *)

(** X11: a metadata record built from a mapping is canonical: its tags are
    strictly ascending and its comment, if any, is stripped and not empty.
    The mapping has no key besides [tags] and [comment]; a missing key gives
    no tags, respectively no comment; and serialising the record and
    validating it again gives the same record. *)
Theorem X11_DateMeta_from_mapping v fields m :
  fields_of v = Ok fields →
  validate_DateMeta v = Ok m →
  DateMeta_canonical m
  ∧ (∀ k, k ∈ Py.keys fields → k ∈ ["tags"; "comment"])
  ∧ (Py.get "tags" fields = None → tags m = [])
  ∧ (Py.get "comment" fields = None → comment m = None)
  ∧ validate_DateMeta (dump_DateMeta m) = Ok m.
Proof.
intros Hf Hv. destruct v; try done. unfold validate_DateMeta in Hv.
rewrite Hf in Hv. unfold mbind at 1, Result_bind at 1 in Hv.
apply bind_Ok in Hv as ([t [c u]] & [Ht [Hc Hx]%collect_Ok]%collect_Ok & [= <-]).
cbn [fst snd] in *.
pose proof (DateMeta_canonicalize_canonical t c) as Hcanon.
split; [done|]. split; [exact (proj1 (forbid_extra_Ok _ _ _) Hx)|].
split; [|split].
- intros Hnone. rewrite Hnone in Ht. injection Ht as <-.
  rewrite DateMeta_canonicalize_tags. apply (sorted_set_nil String.leb).
- intros Hnone. rewrite Hnone in Hc. by injection Hc as <-.
- by apply validate_dump_DateMeta.
Qed.

Lemma X11_DateMeta_from_mapping_witness :
  DateMeta_canonical {| tags := ["a"; "b"]; comment := Some "note" |}.
Proof.
apply (X11_DateMeta_from_mapping
         (PDict [(PStr "tags", PList [PStr "b"; PStr "a"; PStr "a"]);
                 (PStr "comment", PStr "  note ")])
         [("tags", PList [PStr "b"; PStr "a"; PStr "a"]);
          ("comment", PStr "  note ")]).
- reflexivity.
- vm_compute. reflexivity.
Defined.

Lemma rstrip_empty s :
  Py.rstrip s = EmptyString
  ↔ Forall (λ a, Py.isspace a = true) (String.list_ascii_of_string s).
Proof.
induction s as [|a s IH]; simpl.
{ split; [constructor|done]. }
rewrite Forall_cons, <-IH. destruct (Py.rstrip s); [|by split; [|intros []]].
destruct (Py.isspace a); by split; [|intros []].
Qed.

Lemma lstrip_empty s :
  Py.lstrip s = EmptyString
  ↔ Forall (λ a, Py.isspace a = true) (String.list_ascii_of_string s).
Proof.
induction s as [|a s IH]; simpl.
{ split; [constructor|done]. }
rewrite Forall_cons, <-IH. destruct (Py.isspace a); [tauto|].
by split; [|intros []].
Qed.

Lemma strip_empty s :
  Py.strip s = EmptyString
  ↔ Forall (λ a, Py.isspace a = true) (String.list_ascii_of_string s).
Proof.
unfold Py.strip. rewrite rstrip_empty, <-!lstrip_empty.
destruct (lstrip_head s) as [Hs|(c & s' & Hs & Hc)]; rewrite Hs; simpl;
  [done|]. by rewrite Hc.
Qed.

(** X12: the comment of a validated record is absent exactly when the given
    comment consists of whitespace only (the empty comment included);
    otherwise it is the given comment stripped. *)
Theorem X12_comment_whitespace t c :
  (comment (DateMeta_canonicalize t (Some c)) = None
   ↔ Forall (λ a, Py.isspace a = true) (String.list_ascii_of_string c))
  ∧ (comment (DateMeta_canonicalize t (Some c)) ≠ None →
     comment (DateMeta_canonicalize t (Some c)) = Some (Py.strip c)).
Proof.
rewrite <-strip_empty. simpl. by destruct (Py.strip c).
Qed.

Example whitespace_comment_gives_empty_record :
  validate_DateMeta (PDict [(PStr "comment", PStr "   ")])
  = Ok {| tags := []; comment := None |}.
Proof. vm_compute. reflexivity. Qed.

(** X13: the values of [DayType] are unique: a member is found again from
    its value, and a string is the value of at most one member. *)
Theorem X13_DayType_values_unique :
  (∀ t, DayType_of_value (DayType_value t) = Some t)
  ∧ (∀ s t, DayType_of_value s = Some t → DayType_value t = s)
  ∧ (∀ t1 t2, DayType_value t1 = DayType_value t2 → t1 = t2).
Proof.
assert (H1 : ∀ t, DayType_of_value (DayType_value t) = Some t)
  by (by intros []).
split; [done|]. split.
- intros s t. unfold DayType_of_value.
  destruct (list_find _ _) as [[i t']|] eqn:Hfind; [|done].
  simpl. intros [= <-]. by apply list_find_Some in Hfind as (_ & ? & _).
- intros t1 t2 Heq. pose proof (H1 t1) as Ht1. rewrite Heq, H1 in Ht1.
  by injection Ht1.
Qed.

(** X14: day properties validated from a mapping have a type their class
    admits; given back as an instance they are taken as they are, and
    serialised and validated again they come out the same. *)
Theorem X14_DayPropsLike_validation_stable v fields p :
  fields_of v = Ok fields →
  validate_DayPropsLike v = Ok p →
  DayPropsLike_valid p
  ∧ validate_DayPropsLike (PDayProps p) = Ok p
  ∧ validate_DayPropsLike (dump_DayPropsLike p) = Ok p.
Proof.
intros Hf Hv.
assert (Hvalid : DayPropsLike_valid p).
{ destruct v; try done. unfold validate_DayPropsLike in Hv. rewrite Hf in Hv.
  unfold mbind at 1, Result_bind at 1 in Hv.
  apply bind_Ok in Hv as (tag & _ & Hv).
  destruct (to_DayType tag) as [t|]; [|done].
  case_bool_decide.
  - by apply validate_DayProps_Ok in Hv
      as (? & ? & ? & -> & _ & _ & _ & ? & _).
  - by apply validate_DayPropsWithTime_Ok in Hv
      as (? & ? & ? & ? & ? & -> & _ & _ & _ & ? & _). }
split; [done|]. split; [done|]. by apply validate_dump_DayPropsLike.
Qed.

Lemma X14_DayPropsLike_validation_stable_witness :
  validate_DayPropsLike
    (dump_DayPropsLike
       (DayPropsWithTime "Special Open" SPECIAL_OPEN (mk_time 10 0 0 0)))
  = Ok (DayPropsWithTime "Special Open" SPECIAL_OPEN (mk_time 10 0 0 0)).
Proof.
apply (X14_DayPropsLike_validation_stable special_open_raw
         [("type", PStr "special_open"); ("name", PStr "Special Open");
          ("time", PStr "10:00")]); reflexivity.
Defined.

(** X15: construction from a mapping gives a change set in canonical form
    whenever it succeeds; the collections of missing keys are empty; and a
    mapping with a key other than [add], [remove] and [meta] is rejected. *)
Theorem X15_ChangeSet_from_mapping pd v fields :
  fields_of v = Ok fields →
  (∀ c, validate_ChangeSet pd v = Ok c →
     canonical c
     ∧ (∀ k, k ∈ Py.keys fields → k ∈ ["add"; "remove"; "meta"])
     ∧ (Py.get "add" fields = None → add c = [])
     ∧ (Py.get "remove" fields = None → remove c = [])
     ∧ (Py.get "meta" fields = None → meta c = []))
  ∧ (∀ k, k ∈ Py.keys fields → k ∉ ["add"; "remove"; "meta"] →
     ∃ e, validate_ChangeSet pd v = Raise e).
Proof.
intros Hf.
assert (Hok : ∀ c, validate_ChangeSet pd v = Ok c →
     canonical c
     ∧ (∀ k, k ∈ Py.keys fields → k ∈ ["add"; "remove"; "meta"])
     ∧ (Py.get "add" fields = None → add c = [])
     ∧ (Py.get "remove" fields = None → remove c = [])
     ∧ (Py.get "meta" fields = None → meta c = [])).
{ intros c Hv. unfold validate_ChangeSet in Hv. rewrite Hf in Hv.
  unfold mbind at 1, Result_bind at 1 in Hv.
  apply bind_Ok in Hv
    as ([a [r [m u]]]
        & [Ha [Hr [Hm Hx]%collect_Ok]%collect_Ok]%collect_Ok & [= <-]).
  simpl in *. split; [apply ChangeSet_canonicalize_canonical|].
  split; [exact (proj1 (forbid_extra_Ok _ _ _) Hx)|].
  split; [|split]; intros Hnone.
  - rewrite Hnone in Ha. by injection Ha as <-.
  - rewrite Hnone in Hr. injection Hr as <-. apply sorted_set_nil, _.
  - rewrite Hnone in Hm. by injection Hm as <-. }
split; [exact Hok|]. intros k Hk Hnot.
destruct (validate_ChangeSet pd v) as [c|e] eqn:Hv; [|by exists e].
exfalso. apply Hnot. destruct (Hok c eq_refl) as (_ & Hkeys & _). by apply Hkeys.
Qed.

Lemma X15_ChangeSet_from_mapping_witness :
  ∃ e, validate_ChangeSet pd_Timestamp_iso
         (PDict [(PStr "tags", PDict [])]) = Raise e.
Proof.
destruct (X15_ChangeSet_from_mapping pd_Timestamp_iso
            (PDict [(PStr "tags", PDict [])]) [("tags", PDict [])] eq_refl)
  as [_ Hrej].
apply (Hrej "tags"); [by left|].
rewrite !elem_of_cons, elem_of_nil. intuition discriminate.
Defined.

(** ** Setting tags again *)

(** The comment is normalised once and for all. *)
Lemma DateMeta_canonicalize_comment_idem t t' c :
  DateMeta_canonicalize t (comment (DateMeta_canonicalize t' c))
  = DateMeta_canonicalize t c.
Proof.
unfold DateMeta_canonicalize. f_equal. destruct c as [c|]; [|done]. simpl.
destruct (Py.strip c) as [|a r] eqn:Hs; [done|].
by rewrite <-Hs, strip_idem, Hs.
Qed.

Lemma tagged_frame self d t :
  add (tagged self d t) = add self ∧ remove (tagged self d t) = remove self.
Proof. unfold tagged. by destruct (bool_decide _). Qed.

(** X16: [set_tags] touches [meta] only, and the last call for a date
    decides: after setting tags twice for one date, every date has the
    metadata it has after the second call alone. *)
Theorem X16_set_tags_last_call_decides pd self date d v1 t1 v2 t2 :
  TimestampLike pd date = Ok d →
  validate_Tags v1 = Ok t1 →
  validate_Tags v2 = Ok t2 →
  ∃ s1 s12 s2,
    set_tags pd self date v1 = Return s1
    ∧ set_tags pd s1 date v2 = Return s12
    ∧ set_tags pd self date v2 = Return s2
    ∧ (∀ d', Py.get d' (meta s12) = Py.get d' (meta s2))
    ∧ add s12 = add self
    ∧ remove s12 = remove self.
Proof.
intros Hd Hv1 Hv2.
exists (tagged self d t1), (tagged (tagged self d t1) d t2), (tagged self d t2).
split; [by apply set_tags_valid|]. split; [by apply set_tags_valid|].
split; [by apply set_tags_valid|]. split.
- intros d'. destruct (decide (d' = d)) as [->|Hne].
  + rewrite (tagged_get (tagged self d t1) d t2), (tagged_get self d t2).
    cbv zeta. rewrite (tagged_get self d t1). cbv zeta.
    set (c0 := comment (default DateMeta_default (Py.get d (meta self)))).
    destruct (bool_decide (0 < DateMeta_len (DateMeta_canonicalize t1 c0))%nat)
      eqn:Hlen.
    * change (default DateMeta_default (Some ?m)) with m.
      by rewrite DateMeta_canonicalize_comment_idem.
    * change (default DateMeta_default None) with DateMeta_default.
      apply bool_decide_eq_false in Hlen.
      rewrite <-(DateMeta_canonicalize_comment_idem t2 t1 c0).
      unfold DateMeta_len in Hlen.
      destruct (comment (DateMeta_canonicalize t1 c0)); [lia|done].
  + by rewrite !tagged_other.
- destruct (tagged_frame (tagged self d t1) d t2) as [-> ->].
  apply tagged_frame.
Qed.

Lemma X16_set_tags_last_call_decides_witness :
  ∃ s1 s12 s2,
    set_tags pd_Timestamp_iso ChangeSet_new (PStr "2020-01-01")
      (PList [PStr "foo"]) = Return s1
    ∧ set_tags pd_Timestamp_iso s1 (PStr "2020-01-01") PNone = Return s12
    ∧ set_tags pd_Timestamp_iso ChangeSet_new (PStr "2020-01-01") PNone
      = Return s2
    ∧ (∀ d', Py.get d' (meta s12) = Py.get d' (meta s2))
    ∧ add s12 = add ChangeSet_new
    ∧ remove s12 = remove ChangeSet_new.
Proof.
apply (X16_set_tags_last_call_decides pd_Timestamp_iso ChangeSet_new
         (PStr "2020-01-01") day_2020_01_01
         (PList [PStr "foo"]) (Some ["foo"]) PNone None); reflexivity.
Defined.

(** ** The registry of change sets *)

(** X17: assigning a change set to an exchange key makes the key present
    and a lookup return that change set; the other keys keep their change
    sets; the registry grows by one exactly when the key was absent. *)
Theorem X17_ChangeSetDict_setitem root key value :
  let root' := ChangeSetDict_setitem root key value in
  ChangeSetDict_getitem root' key = Found value
  ∧ ChangeSetDict_contains root' key = true
  ∧ ChangeSetDict_get root' key None = Some value
  ∧ (∀ key', key' ≠ key →
       ChangeSetDict_getitem root' key' = ChangeSetDict_getitem root key'
       ∧ ChangeSetDict_contains root' key' = ChangeSetDict_contains root key')
  ∧ ChangeSetDict_len root'
    = if ChangeSetDict_contains root key then ChangeSetDict_len root
      else S (ChangeSetDict_len root).
Proof.
intros root'. unfold root', ChangeSetDict_getitem, ChangeSetDict_contains,
  ChangeSetDict_get, ChangeSetDict_setitem, ChangeSetDict_len.
rewrite get_setitem_eq.
assert (Hkeys : ∀ k, k ∈ Py.keys (Py.setitem key value root)
                     ↔ k = key ∨ k ∈ Py.keys root).
{ intros k. destruct (decide (key ∈ Py.keys root)) as [Hin|Hnin].
  - rewrite setitem_present by done. split; [by right|]. by intros [->|].
  - rewrite setitem_absent by done. unfold Py.keys. rewrite fmap_app.
    rewrite elem_of_app. simpl. rewrite list_elem_of_singleton. tauto. }
split; [done|]. split; [apply contains_true, Hkeys; by left|].
split; [done|]. split.
- intros key' Hne. rewrite get_setitem_ne by done. split; [done|].
  unfold Py.contains. apply bool_decide_ext. rewrite Hkeys. tauto.
- unfold Py.contains. case_bool_decide as Hin.
  + rewrite <-!(length_fmap fst). fold (Py.keys (Py.setitem key value root)).
    fold (Py.keys root). by rewrite setitem_present.
  + rewrite setitem_absent by done. rewrite length_app. simpl. lia.
Qed.

(** X18: deleting a key that is absent raises [KeyError] for that key;
    deleting a key that is present makes it absent and leaves the other
    keys alone; [pop] returns what [get] would have returned, removes the
    key, and with an absent key changes nothing. *)
Theorem X18_ChangeSetDict_delete root key :
  (Py.get key root = None →
     ChangeSetDict_delitem root key = KeyError key
     ∧ ∀ default, ChangeSetDict_pop root key default = (default, root))
  ∧ (∀ value, Py.get key root = Some value →
       ∃ root', ChangeSetDict_delitem root key = Found root'
                ∧ ChangeSetDict_getitem root' key = KeyError key
                ∧ ChangeSetDict_contains root' key = false
                ∧ (∀ key', key' ≠ key →
                     ChangeSetDict_getitem root' key'
                     = ChangeSetDict_getitem root key')
                ∧ ∀ default,
                    ChangeSetDict_pop root key default = (Some value, root'))
  ∧ ∀ default,
      (ChangeSetDict_pop root key default).1
      = ChangeSetDict_get root key default.
Proof.
unfold ChangeSetDict_delitem, ChangeSetDict_pop, ChangeSetDict_getitem,
  ChangeSetDict_contains, ChangeSetDict_get.
split; [|split; [|done]].
- intros Hnone. rewrite Hnone. apply get_None in Hnone.
  rewrite (proj2 (contains_false key root)) by done. split; [done|].
  intros default. by rewrite pop_absent.
- intros value Hsome. rewrite Hsome.
  rewrite (proj2 (contains_true key root)) by (by eapply get_Some_key).
  eexists. split; [reflexivity|]. rewrite get_pop_eq. split; [done|].
  split; [apply contains_false, get_None, get_pop_eq|].
  split; [|done]. intros key' Hne. by rewrite get_pop_ne.
Qed.

(** ** [sanitize] *)

Lemma alnum_dot : alnum "."%char = false.
Proof. done. Qed.

(** X19: [sanitize] keeps the length of its argument, keeps letters and
    digits where they are, leaves nothing but letters, digits and dots, and
    changes nothing when applied again. *)
Theorem X19_sanitize x :
  String.length (sanitize x) = String.length x
  ∧ Forall (λ c, alnum c = true ∨ c = "."%char)
      (String.list_ascii_of_string (sanitize x))
  ∧ (∀ i c, String.get i x = Some c → alnum c = true →
       String.get i (sanitize x) = Some c)
  ∧ sanitize (sanitize x) = sanitize x.
Proof.
induction x as [|a x (IH1 & IH2 & IH3 & IH4)]; simpl.
{ split; [done|]. split; [constructor|]. by split. }
split; [by rewrite IH1|]. split; [|split].
- constructor; [|done]. destruct (alnum a) eqn:Ha; [by left|by right].
- intros [|i] c; simpl.
  + intros [= ->] Hc. by rewrite Hc.
  + apply IH3.
- rewrite IH4. f_equal. destruct (alnum a) eqn:Ha; [by rewrite Ha|done].
Qed.

(** ** Clearing everything, and equality *)

(** X20: [clear] leaves no day to add or to remove, so [all_days] without
    metadata is empty; without [include_meta] the metadata stays as it is
    and makes up the whole length of the change set, with it nothing is
    left; canonical form is kept. *)
Theorem X20_clear self :
  all_days (clear self false) false = []
  ∧ meta (clear self false) = meta self
  ∧ ChangeSet_len (clear self false) = length (meta self)
  ∧ (∀ d, d ∈ all_days (clear self false) true ↔ d ∈ Py.keys (meta self))
  ∧ ChangeSet_len (clear self true) = 0%nat
  ∧ all_days (clear self true) true = []
  ∧ (canonical self → ∀ b, canonical (clear self b)).
Proof.
split; [done|]. split; [done|]. split; [done|]. split.
{ intros d. unfold all_days, clear. cbn [add remove meta].
  rewrite elem_of_sorted, elem_of_elements.
  rewrite !elem_of_union, !elem_of_list_to_set.
  split; [|by right]. intros [[H|H]|H]; [by apply elem_of_nil in H..|done]. }
split; [done|]. split; [done|].
intros (_ & _ & Hm) b. unfold canonical. simpl.
split; [constructor|]. split; [constructor|].
destruct b; [constructor|done].
Qed.

Lemma items_Permutation {V} (l1 l2 : list (Z * V)) :
  NoDup (Py.keys l1) → NoDup (Py.keys l2) →
  (∀ k, Py.get k l1 = Py.get k l2) → l1 ≡ₚ l2.
Proof.
intros H1 H2 Hget.
apply NoDup_Permutation; [by eapply NoDup_fmap_1..|].
intros [k v]. by rewrite <-!get_Some_iff, Hget.
Qed.

(** X21: on change sets in canonical form, equality is equality of content:
    two of them that map every date to the same properties and the same
    metadata and list the same dates for removal compare equal. *)
Theorem X21_eq_by_content a b :
  canonical a → canonical b →
  (∀ d, Py.get d (add a) = Py.get d (add b)) →
  (∀ d, d ∈ remove a ↔ d ∈ remove b) →
  (∀ d, Py.get d (meta a) = Py.get d (meta b)) →
  ChangeSet_eq a b = true ∧ a = b.
Proof.
intros (Haa & Har & Ham) (Hba & Hbr & Hbm) Hadd Hrem Hmeta.
destruct (keys_ascending _ Haa) as [Hnaa Hsaa].
destruct (keys_ascending _ Hba) as [Hnba Hsba].
destruct (keys_ascending _ Ham) as [Hnam Hsam].
destruct (keys_ascending _ Hbm) as [Hnbm Hsbm].
assert (Ha : add a = add b).
{ apply ascending_items_unique; [done..|]. by apply items_Permutation. }
assert (Hm : meta a = meta b).
{ apply ascending_items_unique; [done..|]. by apply items_Permutation. }
assert (Hr : remove a = remove b).
{ apply strictly_Z_lt in Har, Hbr.
  rewrite <-(sorted_set_fixed Z.leb (remove a)) by done.
  rewrite <-(sorted_set_fixed Z.leb (remove b)) by done.
  by apply sorted_set_ext; try apply _. }
unfold ChangeSet_eq. rewrite !bool_decide_eq_true_2 by done.
split; [done|]. destruct a, b. simpl in *. by subst.
Qed.

Lemma X21_eq_by_content_witness :
  let a :=
    {| add := [(day_2020_01_01, DayProps "Holiday" HOLIDAY)];
       remove := [day_2020_01_02]; meta := [] |} in
  ChangeSet_eq a a = true ∧ a = a.
Proof.
intros a. apply X21_eq_by_content; try done;
  repeat split; simpl; repeat constructor.
Defined.
